(** * qsim-core: dimensional analysis of physical quantities

    A shallow embedding of the Go packages [units] (file [units/units.go]:
    [Dimension], [Value] and their arithmetic) and [math/vector]
    ([Vector3] and its algebra), followed by the properties of the
    quantity/dimension algebra stated in the specification.

    Representation choices:
    - a Go [int8] is a [Z] in [-128, 127]; every arithmetic operator wraps
      around explicitly ([int8.wrap]);
    - a Go [float64] is a primitive binary64 [float]; [+ - * /], [math.Sqrt],
      [math.Abs], [==] and [<] are the IEEE-754 operations of [PrimFloat];
    - a Go [(T, error)] result is a [result T]; an [error] built by
      [fmt.Errorf] is its message. *)

From Stdlib Require Import ZArith Bool List String Ascii Lia.
From Stdlib Require Import DecimalString DecimalZ DecimalPos.
From Stdlib Require Import Floats.
Import ListNotations.

Set Implicit Arguments.

(** ** Go primitives *)

(** [int8]: two's complement, 8 bits.  The operators [+], [-] and [/] wrap
    around silently; [%] is the truncated remainder (sign of the dividend). *)
Module int8.
Local Open Scope Z_scope.

Definition wrap (z : Z) : Z := (z + 128) mod 256 - 128.

Definition in_range (z : Z) : Prop := -128 <= z <= 127.

Definition add (a b : Z) : Z := wrap (a + b).
Definition sub (a b : Z) : Z := wrap (a - b).
Definition quo (a b : Z) : Z := wrap (Z.quot a b).
Definition rem (a b : Z) : Z := Z.rem a b.
Definition mul (a b : Z) : Z := wrap (a * b).

(** [int8(n)] for an [int] [n]: the low 8 bits, read as a signed number. *)
Definition of_int (n : Z) : Z := wrap n.
End int8.

(** [float64(n)] for an [int] [n]: the binary64 nearest to [n]. *)
Definition float64_of_int (n : Z) : float :=
  SF2Prim (binary_normalize prec emax n 0%Z false).

(** The result of a Go function returning [(T, error)]. *)
Inductive result (A : Type) : Type :=
| Ok (a : A)
| Err (msg : string).

Arguments Err {A} msg.

Definition is_err {A : Type} (r : result A) : bool :=
  match r with
  | Ok _ => false
  | Err _ => true
  end.

(** [fmt.Sprintf("%d", e)] for an integer [e]. *)
Definition fmt_d (e : Z) : string := NilZero.string_of_int (Z.to_int e).

(** ** Package [units] *)
Module units.
Local Open Scope string_scope.
Local Open Scope list_scope.
Local Open Scope Z_scope.

(** The seven exponents of the SI base dimensions, each an [int8]. *)
Record Dimension : Type := mkDimension
  { L : Z; M : Z; T : Z; I : Z; Θ : Z; N : Z; J : Z }.

(** [Dimension{}] *)
Definition Dimension_zero : Dimension := mkDimension 0 0 0 0 0 0 0.

(** [d == e] on the struct: all seven fields equal. *)
Definition Dimension_eqb (d e : Dimension) : bool :=
  (L d =? L e) && (M d =? M e) && (T d =? T e) && (I d =? I e)
  && (Θ d =? Θ e) && (N d =? N e) && (J d =? J e).

Record Value : Type := mkValue
  { value : float; dim : Dimension }.

(** [Value{}] *)
Definition Value_zero : Value := mkValue 0%float Dimension_zero.

(** [x, _ := f()]: the error is dropped; on the error path every function
    of the package returns [Value{}] next to the error. *)
Definition drop_err (r : result Value) : Value :=
  match r with
  | Ok v => v
  | Err _ => Value_zero
  end.

Definition NewValue (x : float) (d : Dimension) : Value := mkValue x d.

Definition Val (v : Value) : float := value v.

Definition Dim (v : Value) : Dimension := dim v.

(** The loop of [Dimension.String] that joins [parts] with single spaces:
    [i] is the index of the head of [parts]. *)
Fixpoint join_parts (i : nat) (parts : list string) (res : string) : string :=
  match parts with
  | [] => res
  | p :: rest =>
      let res := if (0 <? i)%nat then (res ++ " ")%string else res in
      join_parts (S i) rest (res ++ p)%string
  end.

Definition Dimension_String (d : Dimension) : string :=
  if Dimension_eqb d Dimension_zero then "[1]"
  else
    let parts := @nil string in
    let parts := if negb (L d =? 0) then parts ++ [("L^" ++ fmt_d (L d))%string] else parts in
    let parts := if negb (M d =? 0) then parts ++ [("M^" ++ fmt_d (M d))%string] else parts in
    let parts := if negb (T d =? 0) then parts ++ [("T^" ++ fmt_d (T d))%string] else parts in
    let parts := if negb (I d =? 0) then parts ++ [("I^" ++ fmt_d (I d))%string] else parts in
    let parts := if negb (Θ d =? 0) then parts ++ [("Θ^" ++ fmt_d (Θ d))%string] else parts in
    let parts := if negb (N d =? 0) then parts ++ [("N^" ++ fmt_d (N d))%string] else parts in
    let parts := if negb (J d =? 0) then parts ++ [("J^" ++ fmt_d (J d))%string] else parts in
    let res := "[" in
    let res := join_parts 0 parts res in
    (res ++ "]")%string.

(** [almostEqual(a, b, tolerance)] *)
Definition almostEqual (a b tolerance : float) : bool :=
  if (a =? b)%float then true
  else
    let diff := PrimFloat.abs (a - b)%float in
    if (a =? 0)%float || (b =? 0)%float || (diff <? tolerance)%float
    then (diff <? tolerance)%float
    else (diff / (PrimFloat.abs a + PrimFloat.abs b) <? tolerance)%float.

(** The literal [1e-14] of [Value.Equal], rounded to the nearest binary64. *)
#[warnings="-inexact-float"] Definition Equal_tolerance : float := 1e-14%float.

Definition Equal (v other : Value) : bool :=
  Dimension_eqb (dim v) (dim other)
  && almostEqual (value v) (value other) Equal_tolerance.

Definition Add (v other : Value) : result Value :=
  if negb (Dimension_eqb (dim v) (dim other)) then
    Err ("cannot add quantities with different dimensions: "
         ++ Dimension_String (dim v) ++ " + " ++ Dimension_String (dim other))%string
  else Ok (mkValue (value v + value other)%float (dim v)).

Definition Subtract (v other : Value) : result Value :=
  if negb (Dimension_eqb (dim v) (dim other)) then
    Err ("cannot subtract quantities with different dimensions: "
         ++ Dimension_String (dim v) ++ " - " ++ Dimension_String (dim other))%string
  else Ok (mkValue (value v - value other)%float (dim v)).

Definition Multiply (v other : Value) : Value :=
  mkValue (value v * value other)%float
    (mkDimension
       (int8.add (L (dim v)) (L (dim other)))
       (int8.add (M (dim v)) (M (dim other)))
       (int8.add (T (dim v)) (T (dim other)))
       (int8.add (I (dim v)) (I (dim other)))
       (int8.add (Θ (dim v)) (Θ (dim other)))
       (int8.add (N (dim v)) (N (dim other)))
       (int8.add (J (dim v)) (J (dim other)))).

Definition Divide (v other : Value) : Value :=
  mkValue (value v / value other)%float
    (mkDimension
       (int8.sub (L (dim v)) (L (dim other)))
       (int8.sub (M (dim v)) (M (dim other)))
       (int8.sub (T (dim v)) (T (dim other)))
       (int8.sub (I (dim v)) (I (dim other)))
       (int8.sub (Θ (dim v)) (Θ (dim other)))
       (int8.sub (N (dim v)) (N (dim other)))
       (int8.sub (J (dim v)) (J (dim other)))).

Definition Scale (v : Value) (scalar : float) : Value :=
  mkValue (value v * scalar)%float (dim v).

Definition Sqrt (v : Value) : result Value :=
  if negb (int8.rem (L (dim v)) 2 =? 0) || negb (int8.rem (M (dim v)) 2 =? 0)
     || negb (int8.rem (T (dim v)) 2 =? 0) || negb (int8.rem (I (dim v)) 2 =? 0)
     || negb (int8.rem (Θ (dim v)) 2 =? 0) || negb (int8.rem (N (dim v)) 2 =? 0)
     || negb (int8.rem (J (dim v)) 2 =? 0)
  then
    Err ("cannot take square root of quantity with odd dimension exponents: "
         ++ Dimension_String (dim v))%string
  else
    Ok (mkValue (PrimFloat.sqrt (value v))
          (mkDimension
             (int8.quo (L (dim v)) 2)
             (int8.quo (M (dim v)) 2)
             (int8.quo (T (dim v)) 2)
             (int8.quo (I (dim v)) 2)
             (int8.quo (Θ (dim v)) 2)
             (int8.quo (N (dim v)) 2)
             (int8.quo (J (dim v)) 2))).

Definition Abs (v : Value) : Value :=
  mkValue (PrimFloat.abs (value v)) (dim v).

Definition Negate (v : Value) : Value :=
  mkValue (- value v)%float (dim v).

Definition IsDimensionless (v : Value) : bool :=
  Dimension_eqb (dim v) Dimension_zero.

Definition Dimensionless (x : float) : Value := mkValue x Dimension_zero.

(** [Value.Power]; [math.Pow] of the Go standard library is a parameter. *)
Section Power.
Variable math_Pow : float -> float -> float.

Definition Power (v : Value) (n : Z) : Value :=
  mkValue (math_Pow (value v) (float64_of_int n))
    (mkDimension
       (int8.mul (L (dim v)) (int8.of_int n))
       (int8.mul (M (dim v)) (int8.of_int n))
       (int8.mul (T (dim v)) (int8.of_int n))
       (int8.mul (I (dim v)) (int8.of_int n))
       (int8.mul (Θ (dim v)) (int8.of_int n))
       (int8.mul (N (dim v)) (int8.of_int n))
       (int8.mul (J (dim v)) (int8.of_int n))).
End Power.

(** *** Named units: [type Length struct{ Value }] and the like, with the
    constructor of the SI unit of each. *)

Record Length : Type := mkLength { Length_Value : Value }.
Record Mass : Type := mkMass { Mass_Value : Value }.
Record Time : Type := mkTime { Time_Value : Value }.
Record Current : Type := mkCurrent { Current_Value : Value }.
Record Area : Type := mkArea { Area_Value : Value }.
Record Volume : Type := mkVolume { Volume_Value : Value }.
Record Velocity : Type := mkVelocity { Velocity_Value : Value }.
Record Acceleration : Type := mkAcceleration { Acceleration_Value : Value }.
Record Force : Type := mkForce { Force_Value : Value }.
Record Energy : Type := mkEnergy { Energy_Value : Value }.
(** The Go type [Power]; the name [Power] is taken by the method above. *)
Record Power_ : Type := mkPower { Power_Value : Value }.
Record Pressure : Type := mkPressure { Pressure_Value : Value }.
Record Charge : Type := mkCharge { Charge_Value : Value }.
Record Voltage : Type := mkVoltage { Voltage_Value : Value }.
Record Resistance : Type := mkResistance { Resistance_Value : Value }.

Definition Meter (x : float) : Length :=
  mkLength (NewValue x (mkDimension 1 0 0 0 0 0 0)).
Definition Kilogram (x : float) : Mass :=
  mkMass (NewValue x (mkDimension 0 1 0 0 0 0 0)).
Definition Second (x : float) : Time :=
  mkTime (NewValue x (mkDimension 0 0 1 0 0 0 0)).
Definition Ampere (x : float) : Current :=
  mkCurrent (NewValue x (mkDimension 0 0 0 1 0 0 0)).
Definition SquareMeter (x : float) : Area :=
  mkArea (NewValue x (mkDimension 2 0 0 0 0 0 0)).
Definition CubicMeter (x : float) : Volume :=
  mkVolume (NewValue x (mkDimension 3 0 0 0 0 0 0)).
Definition MeterPerSecond (x : float) : Velocity :=
  mkVelocity (NewValue x (mkDimension 1 0 (-1) 0 0 0 0)).
Definition MeterPerSecond2 (x : float) : Acceleration :=
  mkAcceleration (NewValue x (mkDimension 1 0 (-2) 0 0 0 0)).
Definition Newton (x : float) : Force :=
  mkForce (NewValue x (mkDimension 1 1 (-2) 0 0 0 0)).
Definition Joule (x : float) : Energy :=
  mkEnergy (NewValue x (mkDimension 2 1 (-2) 0 0 0 0)).
Definition Watt (x : float) : Power_ :=
  mkPower (NewValue x (mkDimension 2 1 (-3) 0 0 0 0)).
Definition Pascal (x : float) : Pressure :=
  mkPressure (NewValue x (mkDimension (-1) 1 (-2) 0 0 0 0)).
Definition Coulomb (x : float) : Charge :=
  mkCharge (NewValue x (mkDimension 0 0 1 1 0 0 0)).
Definition Volt (x : float) : Voltage :=
  mkVoltage (NewValue x (mkDimension 2 1 (-3) (-1) 0 0 0)).
Definition Ohm (x : float) : Resistance :=
  mkResistance (NewValue x (mkDimension 2 1 (-3) (-2) 0 0 0)).

(** *** Typed operations of the derived units *)

Definition Area_Multiply (a : Area) (l : Length) : Volume :=
  mkVolume (Multiply (Area_Value a) (Length_Value l)).
Definition Velocity_Divide (v : Velocity) (t : Time) : Acceleration :=
  mkAcceleration (Divide (Velocity_Value v) (Time_Value t)).
Definition Length_Divide (l : Length) (t : Time) : Velocity :=
  mkVelocity (Divide (Length_Value l) (Time_Value t)).
Definition Mass_MultiplyAcceleration (m : Mass) (a : Acceleration) : Force :=
  mkForce (Multiply (Mass_Value m) (Acceleration_Value a)).
Definition Force_Multiply (f : Force) (l : Length) : Energy :=
  mkEnergy (Multiply (Force_Value f) (Length_Value l)).
Definition Energy_Divide (e : Energy) (t : Time) : Power_ :=
  mkPower (Divide (Energy_Value e) (Time_Value t)).
Definition Power_Multiply (p : Power_) (t : Time) : Energy :=
  mkEnergy (Multiply (Power_Value p) (Time_Value t)).
Definition Force_Divide (f : Force) (a : Area) : Pressure :=
  mkPressure (Divide (Force_Value f) (Area_Value a)).
Definition Voltage_Divide (v : Voltage) (i : Current) : Resistance :=
  mkResistance (Divide (Voltage_Value v) (Current_Value i)).
Definition Current_Multiply (i : Current) (t : Time) : Charge :=
  mkCharge (Multiply (Current_Value i) (Time_Value t)).
Definition Charge_Divide (q : Charge) (t : Time) : Current :=
  mkCurrent (Divide (Charge_Value q) (Time_Value t)).
End units.

(** ** Package [math/vector] *)
Module vector.
Local Open Scope string_scope.

(** Three [units.Value]s; the struct itself carries no dimension. *)
Record Vector3 : Type := mkVector3
  { X : units.Value; Y : units.Value; Z : units.Value }.

Definition New (x y z : units.Value) : result Vector3 :=
  if negb (units.Dimension_eqb (units.Dim x) (units.Dim y))
     || negb (units.Dimension_eqb (units.Dim x) (units.Dim z))
  then
    Err ("vector components must have same dimension: x="
         ++ units.Dimension_String (units.Dim x)
         ++ ", y=" ++ units.Dimension_String (units.Dim y)
         ++ ", z=" ++ units.Dimension_String (units.Dim z))
  else Ok (mkVector3 x y z).

Definition Zero (dim : units.Dimension) : Vector3 :=
  mkVector3 (units.NewValue 0 dim) (units.NewValue 0 dim) (units.NewValue 0 dim).

Definition UnitX (dim : units.Dimension) : Vector3 :=
  mkVector3 (units.NewValue 1 dim) (units.NewValue 0 dim) (units.NewValue 0 dim).

Definition UnitY (dim : units.Dimension) : Vector3 :=
  mkVector3 (units.NewValue 0 dim) (units.NewValue 1 dim) (units.NewValue 0 dim).

Definition UnitZ (dim : units.Dimension) : Vector3 :=
  mkVector3 (units.NewValue 0 dim) (units.NewValue 1 dim) (units.NewValue 0 dim).

Definition Dim (v : Vector3) : units.Dimension := units.Dim (X v).

Definition Add (v other : Vector3) : result Vector3 :=
  match units.Add (X v) (X other) with
  | Err err => Err err
  | Ok x =>
      match units.Add (Y v) (Y other) with
      | Err err => Err err
      | Ok y =>
          match units.Add (Z v) (Z other) with
          | Err err => Err err
          | Ok z => Ok (mkVector3 x y z)
          end
      end
  end.

Definition Subtract (v other : Vector3) : result Vector3 :=
  match units.Subtract (X v) (X other) with
  | Err err => Err err
  | Ok x =>
      match units.Subtract (Y v) (Y other) with
      | Err err => Err err
      | Ok y =>
          match units.Subtract (Z v) (Z other) with
          | Err err => Err err
          | Ok z => Ok (mkVector3 x y z)
          end
      end
  end.

Definition Scale (v : Vector3) (scalar : float) : Vector3 :=
  mkVector3 (units.Scale (X v) scalar) (units.Scale (Y v) scalar)
    (units.Scale (Z v) scalar).

Definition Negate (v : Vector3) : Vector3 :=
  mkVector3 (units.Negate (X v)) (units.Negate (Y v)) (units.Negate (Z v)).

Definition Dot (v other : Vector3) : units.Value :=
  let xx := units.Multiply (X v) (X other) in
  let yy := units.Multiply (Y v) (Y other) in
  let zz := units.Multiply (Z v) (Z other) in
  let res := units.drop_err (units.Add xx yy) in
  let res := units.drop_err (units.Add res zz) in
  res.

Definition Cross (v other : Vector3) : Vector3 :=
  let xVal := units.drop_err
    (units.Subtract (units.Multiply (Y v) (Z other)) (units.Multiply (Z v) (Y other))) in
  let yVal := units.drop_err
    (units.Subtract (units.Multiply (Z v) (X other)) (units.Multiply (X v) (Z other))) in
  let zVal := units.drop_err
    (units.Subtract (units.Multiply (X v) (Y other)) (units.Multiply (Y v) (X other))) in
  mkVector3 xVal yVal zVal.

Definition MagnitudeSquared (v : Vector3) : units.Value := Dot v v.

Definition Magnitude (v : Vector3) : result units.Value :=
  let magSquared := MagnitudeSquared v in
  units.Sqrt magSquared.

Definition Normalize (v : Vector3) : result Vector3 :=
  match Magnitude v with
  | Err err => Err err
  | Ok mag =>
      if (units.Val mag =? 0)%float then Err "cannot normalize zero vector"
      else
        Ok (mkVector3 (units.Divide (X v) mag) (units.Divide (Y v) mag)
              (units.Divide (Z v) mag))
  end.

Definition ProjectOnto (v other : Vector3) : result Vector3 :=
  let dotProduct := Dot v other in
  let otherMagSquared := MagnitudeSquared other in
  if (units.Val otherMagSquared =? 0)%float then Err "cannot project onto zero vector"
  else
    let scalar := units.Divide dotProduct otherMagSquared in
    Ok (mkVector3 (units.Multiply (X other) scalar) (units.Multiply (Y other) scalar)
          (units.Multiply (Z other) scalar)).

Definition IsZero (v : Vector3) : bool :=
  (units.Val (X v) =? 0)%float && (units.Val (Y v) =? 0)%float
  && (units.Val (Z v) =? 0)%float.

Definition NewPosition (x y z : units.Length) : Vector3 :=
  mkVector3 (units.Length_Value x) (units.Length_Value y) (units.Length_Value z).

Definition NewVelocity (vx vy vz : units.Velocity) : Vector3 :=
  mkVector3 (units.Velocity_Value vx) (units.Velocity_Value vy)
    (units.Velocity_Value vz).

Definition NewAcceleration (ax ay az : units.Acceleration) : Vector3 :=
  mkVector3 (units.Acceleration_Value ax) (units.Acceleration_Value ay)
    (units.Acceleration_Value az).

Definition NewForce (fx fy fz : units.Force) : Vector3 :=
  mkVector3 (units.Force_Value fx) (units.Force_Value fy) (units.Force_Value fz).

(** [Vector3.AngleBetween]; [math.Acos] of the Go standard library is a
    parameter.  On the error paths the source returns the angle 0 next to
    the error. *)
Section AngleBetween.
Variable math_Acos : float -> float.

Definition AngleBetween (v other : Vector3) : result float :=
  let dotProduct := Dot v other in
  match Magnitude v with
  | Err err => Err err
  | Ok magV =>
      match Magnitude other with
      | Err err => Err err
      | Ok magOther =>
          let magProduct := units.Multiply magV magOther in
          if (units.Val magProduct =? 0)%float
          then Err "cannot compute angle with zero vector"
          else
            let cosTheta := units.Val (units.Divide dotProduct magProduct) in
            let cosTheta := if (1.0 <? cosTheta)%float then 1.0%float else cosTheta in
            let cosTheta := if (cosTheta <? -1.0)%float then (-1.0)%float else cosTheta in
            Ok (math_Acos cosTheta)
      end
  end.
End AngleBetween.

Definition IsParallel (v other : Vector3) (tolerance : float) : bool :=
  let cross := Cross v other in
  let magSquared := MagnitudeSquared cross in
  (PrimFloat.abs (units.Val magSquared) <? tolerance)%float.

Definition IsPerpendicular (v other : Vector3) (tolerance : float) : bool :=
  let dot := Dot v other in
  (PrimFloat.abs (units.Val dot) <? tolerance)%float.

Definition Components (v : Vector3) : list units.Value := [X v; Y v; Z v].

Definition ToArray (v : Vector3) : float * float * float :=
  (units.Val (X v), units.Val (Y v), units.Val (Z v)).
End vector.

(** ** Notions used in the statements *)

(** The seven exponents of a dimension, in the order of the struct's fields. *)
Definition exponents (d : units.Dimension) : list Z :=
  [units.L d; units.M d; units.T d; units.I d; units.Θ d; units.N d; units.J d].

(** Every exponent is a value of type [int8]. *)
Definition Dimension_in_range (d : units.Dimension) : Prop :=
  Forall int8.in_range (exponents d).

(** Exponents whose double is still an [int8]. *)
Definition half_range (z : Z) : Prop := (-64 <= z <= 63)%Z.

(** Pointwise combination of two exponent lists. *)
Definition zip_with (f : Z -> Z -> Z) (l1 l2 : list Z) : list Z :=
  map (fun p => f (fst p) (snd p)) (combine l1 l2).

(** The three components of a vector carry one dimension. *)
Definition SameDimension (v : vector.Vector3) : Prop :=
  units.dim (vector.X v) = units.dim (vector.Y v)
  /\ units.dim (vector.X v) = units.dim (vector.Z v).

(** The components of a vector, as [Vector3.Components] lists them. *)
Definition components (v : vector.Vector3) : list units.Value :=
  [vector.X v; vector.Y v; vector.Z v].

(** [x != x]: the float is a NaN. *)
Definition is_nan (x : float) : bool := negb (x =? x)%float.

(** [Value.Equal] as the specification words it: equal dimensions, and either
    equal magnitudes, or no operand exactly zero and the relative error within
    the tolerance, or an operand exactly zero and the absolute error within it. *)
Definition Equal_as_specified (a b : units.Value) : bool :=
  let x := units.value a in
  let y := units.value b in
  let diff := PrimFloat.abs (x - y)%float in
  let rel := (diff / (PrimFloat.abs x + PrimFloat.abs y))%float in
  units.Dimension_eqb (units.dim a) (units.dim b)
  && ((x =? y)%float
      || (negb (x =? 0)%float && negb (y =? 0)%float
          && (rel <? units.Equal_tolerance)%float)
      || (((x =? 0)%float || (y =? 0)%float)
          && (diff <? units.Equal_tolerance)%float)).

(** The rendering of a dimension as the specification words it: one
    [SYMBOL^exponent] token per non-zero exponent, in the order
    L, M, T, I, Θ, N, J, separated by single spaces, in square brackets;
    [[1]] when no exponent is non-zero. *)
Definition symbols : list string :=
  ["L"; "M"; "T"; "I"; "Θ"; "N"; "J"]%string.

Definition token (p : string * Z) : string :=
  (fst p ++ "^" ++ fmt_d (snd p))%string.

Definition render_tokens (d : units.Dimension) : list string :=
  map token
    (filter (fun p => negb (snd p =? 0)%Z) (combine symbols (exponents d))).

Definition Render (d : units.Dimension) : string :=
  match render_tokens d with
  | [] => "[1]"%string
  | ts => ("[" ++ String.concat " " ts ++ "]")%string
  end.

(** Notions for reading a rendering back: the separators of the rendering,
    strings free of them, the first character of a string, the tokens of a
    list of symbols with exponents, and the text that follows the first
    token. *)
Definition is_sep (c : ascii) : bool := (c =? " ")%char || (c =? "]")%char.

Fixpoint sep_free (s : string) : bool :=
  match s with
  | EmptyString => true
  | String c s' => negb (is_sep c) && sep_free s'
  end.

Definition first_char (s : string) : ascii :=
  match s with
  | String c _ => c
  | EmptyString => " "%char
  end.

Definition tokens_of (l : list (string * Z)) : list string :=
  map token (filter (fun p => negb (snd p =? 0)%Z) l).

Definition tail_str (ts : list string) : string :=
  fold_right (fun q acc => (" " ++ q ++ acc)%string) "]"%string ts.

(** * Properties *)

(** ** Arithmetic of [int8] *)
Section Int8Facts.
Local Open Scope Z_scope.

Lemma wrap_in_range (z : Z) : int8.in_range (int8.wrap z).
Proof.
  unfold int8.in_range, int8.wrap.
  pose proof (Z.mod_pos_bound (z + 128) 256 ltac:(lia)). lia.
Qed.

Lemma wrap_id (z : Z) : int8.in_range z -> int8.wrap z = z.
Proof.
  unfold int8.in_range, int8.wrap. intros H.
  rewrite Z.mod_small by lia. lia.
Qed.

Lemma wrap_even (z : Z) : Z.even (int8.wrap z) = Z.even z.
Proof.
  unfold int8.wrap.
  pose proof (Z.div_mod (z + 128) 256 ltac:(lia)) as E.
  replace ((z + 128) mod 256 - 128) with (z + 2 * (- 128 * ((z + 128) / 256))) by lia.
  apply Z.even_add_mul_2.
Qed.

Lemma rem2_eqb_even (z : Z) : (int8.rem z 2 =? 0) = Z.even z.
Proof.
  unfold int8.rem.
  destruct (Z.even z) eqn:E.
  - apply Z.eqb_eq. apply Z.even_spec in E. destruct E as [k ->].
    rewrite Z.mul_comm. apply Z.rem_mul. lia.
  - apply Z.eqb_neq. intros R.
    assert (Z.odd z = true) as O by (rewrite <- Z.negb_even, E; reflexivity).
    apply Z.odd_spec in O. destruct O as [k ->].
    pose proof (Z.quot_rem' (2 * k + 1) 2) as Q. rewrite R in Q.
    lia.
Qed.

Lemma quo2_double (z : Z) :
  int8.in_range z -> Z.even z = true -> 2 * int8.quo z 2 = z.
Proof.
  intros R E. unfold int8.quo.
  apply Z.even_spec in E. destruct E as [k ->].
  rewrite (Z.mul_comm 2 k) in *. rewrite Z.quot_mul by lia.
  rewrite wrap_id; unfold int8.in_range in *; lia.
Qed.
End Int8Facts.

(** ** Results *)

Lemma Ok_inj (A : Type) (a b : A) : Ok a = Ok b -> a = b.
Proof. intros E. injection E as E. exact E. Qed.

(** ** Structural equality of dimensions *)

Lemma Dimension_eqb_eq (d e : units.Dimension) :
  units.Dimension_eqb d e = true <-> d = e.
Proof.
  destruct d, e. unfold units.Dimension_eqb. cbn [units.L units.M units.T units.I units.Θ units.N units.J].
  rewrite !andb_true_iff, !Z.eqb_eq.
  split.
  - intros [[[[[[-> ->] ->] ->] ->] ->] ->]. reflexivity.
  - intros E. injection E as -> -> -> -> -> -> ->. repeat split.
Qed.

Lemma Dimension_eqb_refl (d : units.Dimension) : units.Dimension_eqb d d = true.
Proof. apply Dimension_eqb_eq. reflexivity. Qed.

Lemma Dimension_eqb_neq (d e : units.Dimension) :
  units.Dimension_eqb d e = false <-> d <> e.
Proof.
  rewrite <- Dimension_eqb_eq. destruct (units.Dimension_eqb d e); split; congruence.
Qed.

(** A property of all seven exponents, field by field. *)
Lemma Forall_exponents (P : Z -> Prop) (d : units.Dimension) :
  Forall P (exponents d)
  <-> P (units.L d) /\ P (units.M d) /\ P (units.T d) /\ P (units.I d)
      /\ P (units.Θ d) /\ P (units.N d) /\ P (units.J d).
Proof.
  unfold exponents. split.
  - intros H.
    repeat match goal with
           | H : Forall _ (_ :: _) |- _ => apply Forall_cons_iff in H; destruct H
           end.
    repeat split; assumption.
  - intros (? & ? & ? & ? & ? & ? & ?). repeat constructor; assumption.
Qed.

(** ** Value arithmetic *)

(** C1. [Value.Add] and [Value.Subtract] fail exactly when the two
    dimensions are not structurally equal; when they are equal, [Add]
    returns [(a.value + b.value, a.dim)] and [Subtract] returns
    [(a.value - b.value, a.dim)], without error. *)
Theorem Value_Add_Subtract_spec (a b : units.Value) :
  (is_err (units.Add a b) = true <-> units.dim a <> units.dim b)
  /\ (is_err (units.Subtract a b) = true <-> units.dim a <> units.dim b)
  /\ (units.dim a = units.dim b ->
      units.Add a b
      = Ok (units.mkValue (units.value a + units.value b)%float (units.dim a))
      /\ units.Subtract a b
         = Ok (units.mkValue (units.value a - units.value b)%float (units.dim a))).
Proof.
  unfold units.Add, units.Subtract.
  destruct (units.Dimension_eqb (units.dim a) (units.dim b)) eqn:E; cbn.
  - apply Dimension_eqb_eq in E.
    repeat split; intros; try discriminate; try contradiction; reflexivity.
  - apply Dimension_eqb_neq in E.
    repeat split; intros; try assumption; try reflexivity; contradiction.
Qed.

Example Add_meters :
  units.Add (units.mkValue 5 (units.mkDimension 1 0 0 0 0 0 0))
            (units.mkValue 3 (units.mkDimension 1 0 0 0 0 0 0))
  = Ok (units.mkValue 8 (units.mkDimension 1 0 0 0 0 0 0)).
Proof. reflexivity. Qed.

Example Add_meter_kilogram :
  is_err (units.Add (units.mkValue 5 (units.mkDimension 1 0 0 0 0 0 0))
                    (units.mkValue 3 (units.mkDimension 0 1 0 0 0 0 0)))
  = true.
Proof. reflexivity. Qed.

(** Exponent lists are combined pointwise by [Multiply] and [Divide], each
    sum or difference being wrapped to 8 bits. *)
Lemma Multiply_exponents (a b : units.Value) :
  exponents (units.dim (units.Multiply a b))
  = map int8.wrap (zip_with Z.add (exponents (units.dim a)) (exponents (units.dim b))).
Proof. reflexivity. Qed.

Lemma Divide_exponents (a b : units.Value) :
  exponents (units.dim (units.Divide a b))
  = map int8.wrap (zip_with Z.sub (exponents (units.dim a)) (exponents (units.dim b))).
Proof. reflexivity. Qed.

Lemma map_wrap_id (l : list Z) : Forall int8.in_range l -> map int8.wrap l = l.
Proof.
  induction 1 as [|z l Hz _ IH]; cbn.
  - reflexivity.
  - rewrite wrap_id by assumption. f_equal. exact IH.
Qed.

(** C2, as the claim states it, fails: [int8] exponents wrap around, so the
    exponent of a product is not always the sum of the operands' exponents
    (here 127 + 1 gives -128). *)
Lemma Value_Multiply_sum_counterexample :
  let a := units.mkValue 1 (units.mkDimension 127 0 0 0 0 0 0) in
  let b := units.mkValue 1 (units.mkDimension 1 0 0 0 0 0 0) in
  Dimension_in_range (units.dim a) /\ Dimension_in_range (units.dim b)
  /\ units.L (units.dim (units.Multiply a b)) = (-128)%Z
  /\ units.L (units.dim (units.Multiply a b))
     <> (units.L (units.dim a) + units.L (units.dim b))%Z.
Proof.
  cbv zeta. repeat split; try discriminate;
    repeat constructor; cbn; try discriminate.
Qed.

(** C2 (amended). [Multiply] and [Divide] are total; the magnitude of the
    result is the product, respectively the quotient, of the magnitudes
    (also for a zero divisor); each exponent of the result is the sum,
    respectively the difference, of the corresponding exponents wrapped
    around to [int8], hence the exact sum or difference whenever that lies
    in [-128, 127]. *)
Theorem Value_Multiply_Divide_spec (a b : units.Value) :
  units.value (units.Multiply a b) = (units.value a * units.value b)%float
  /\ units.value (units.Divide a b) = (units.value a / units.value b)%float
  /\ exponents (units.dim (units.Multiply a b))
     = map int8.wrap (zip_with Z.add (exponents (units.dim a)) (exponents (units.dim b)))
  /\ exponents (units.dim (units.Divide a b))
     = map int8.wrap (zip_with Z.sub (exponents (units.dim a)) (exponents (units.dim b)))
  /\ (Forall int8.in_range (zip_with Z.add (exponents (units.dim a)) (exponents (units.dim b))) ->
      exponents (units.dim (units.Multiply a b))
      = zip_with Z.add (exponents (units.dim a)) (exponents (units.dim b)))
  /\ (Forall int8.in_range (zip_with Z.sub (exponents (units.dim a)) (exponents (units.dim b))) ->
      exponents (units.dim (units.Divide a b))
      = zip_with Z.sub (exponents (units.dim a)) (exponents (units.dim b))).
Proof.
  split; [reflexivity|]. split; [reflexivity|].
  split; [apply Multiply_exponents|]. split; [apply Divide_exponents|].
  split; intros H.
  - rewrite Multiply_exponents. apply map_wrap_id, H.
  - rewrite Divide_exponents. apply map_wrap_id, H.
Qed.

(** [Divide(Meter(10), Second(2))] has magnitude 5 and dimension [L^1 T^-1];
    a zero divisor gives an infinite magnitude, not an error. *)
Lemma Value_Multiply_Divide_spec_witness :
  let a := units.mkValue 10 (units.mkDimension 1 0 0 0 0 0 0) in
  let b := units.mkValue 2 (units.mkDimension 0 0 1 0 0 0 0) in
  exponents (units.dim (units.Divide a b)) = [1; 0; -1; 0; 0; 0; 0]%Z
  /\ exponents (units.dim (units.Multiply a b)) = [1; 0; 1; 0; 0; 0; 0]%Z.
Proof.
  cbv zeta.
  pose proof (Value_Multiply_Divide_spec
                (units.mkValue 10 (units.mkDimension 1 0 0 0 0 0 0))
                (units.mkValue 2 (units.mkDimension 0 0 1 0 0 0 0)))
    as (_ & _ & _ & _ & HM & HD).
  split.
  - rewrite HD; [reflexivity|].
    repeat constructor; cbn; discriminate.
  - rewrite HM; [reflexivity|].
    repeat constructor; cbn; discriminate.
Defined.

Example Divide_by_zero :
  units.Divide (units.mkValue 1 units.Dimension_zero) (units.mkValue 0 units.Dimension_zero)
  = units.mkValue infinity units.Dimension_zero.
Proof. reflexivity. Qed.

(** ** Square root *)

(** The guard of [Value.Sqrt] holds exactly when some exponent is odd. *)
Lemma Sqrt_is_err (v : units.Value) :
  is_err (units.Sqrt v)
  = existsb Z.odd (exponents (units.dim v)).
Proof.
  unfold units.Sqrt. rewrite !rem2_eqb_even, !Z.negb_even.
  cbn [existsb exponents].
  destruct (Z.odd (units.L (units.dim v))), (Z.odd (units.M (units.dim v))),
    (Z.odd (units.T (units.dim v))), (Z.odd (units.I (units.dim v))),
    (Z.odd (units.Θ (units.dim v))), (Z.odd (units.N (units.dim v))),
    (Z.odd (units.J (units.dim v))); reflexivity.
Qed.

Lemma Sqrt_Ok (v : units.Value) :
  is_err (units.Sqrt v) = false ->
  units.Sqrt v
  = Ok (units.mkValue (PrimFloat.sqrt (units.value v))
          (units.mkDimension
             (int8.quo (units.L (units.dim v)) 2) (int8.quo (units.M (units.dim v)) 2)
             (int8.quo (units.T (units.dim v)) 2) (int8.quo (units.I (units.dim v)) 2)
             (int8.quo (units.Θ (units.dim v)) 2) (int8.quo (units.N (units.dim v)) 2)
             (int8.quo (units.J (units.dim v)) 2))).
Proof.
  unfold units.Sqrt.
  match goal with |- context [if ?c then _ else _] => destruct c end.
  - discriminate.
  - reflexivity.
Qed.

(** C3. [Value.Sqrt] fails exactly when one of the seven exponents is odd;
    otherwise it returns the square root of the magnitude with every
    exponent halved.  The magnitude plays no part in the decision. *)
Theorem Value_Sqrt_spec (v : units.Value) (Hr : Dimension_in_range (units.dim v)) :
  (is_err (units.Sqrt v) = true
   <-> Exists (fun e => Z.odd e = true) (exponents (units.dim v)))
  /\ (is_err (units.Sqrt v) = false ->
      exists w, units.Sqrt v = Ok w
                /\ units.value w = PrimFloat.sqrt (units.value v)
                /\ Forall2 (fun h e => (2 * h)%Z = e)
                     (exponents (units.dim w)) (exponents (units.dim v)))
  /\ (forall x : float,
         is_err (units.Sqrt (units.mkValue x (units.dim v))) = is_err (units.Sqrt v)).
Proof.
  split; [|split].
  - rewrite Sqrt_is_err, existsb_exists, Exists_exists. reflexivity.
  - intros H. eexists. split; [apply Sqrt_Ok, H|]. split; [reflexivity|].
    rewrite Sqrt_is_err in H.
    assert (Forall (fun e => Z.even e = true) (exponents (units.dim v))) as Hev.
    { apply Forall_forall. intros e He.
      destruct (Z.even e) eqn:E; [reflexivity|].
      assert (existsb Z.odd (exponents (units.dim v)) = true); [|congruence].
      apply existsb_exists. exists e. split; [exact He|].
      rewrite <- Z.negb_even, E. reflexivity. }
    apply Forall_exponents in Hr. apply Forall_exponents in Hev.
    destruct Hr as (? & ? & ? & ? & ? & ? & ?).
    destruct Hev as (? & ? & ? & ? & ? & ? & ?).
    unfold exponents; cbn.
    repeat constructor; apply quo2_double; assumption.
  - intros x. rewrite !Sqrt_is_err. reflexivity.
Qed.

(** [Sqrt(value(25, {L:2}))] is 5 with dimension [L^1]. *)
Lemma Value_Sqrt_spec_witness :
  exists w, units.Sqrt (units.mkValue 25 (units.mkDimension 2 0 0 0 0 0 0)) = Ok w
            /\ units.value w = 5%float
            /\ Forall2 (fun h e => (2 * h)%Z = e)
                 (exponents (units.dim w)) [2; 0; 0; 0; 0; 0; 0]%Z.
Proof.
  assert (Dimension_in_range (units.mkDimension 2 0 0 0 0 0 0)) as Hr.
  { repeat constructor; cbn; discriminate. }
  destruct (Value_Sqrt_spec (units.mkValue 25 (units.mkDimension 2 0 0 0 0 0 0)) Hr)
    as (_ & H & _).
  destruct (H eq_refl) as (w & E & Ev & Ed).
  exists w. split; [exact E|]. split; [|exact Ed].
  rewrite Ev. reflexivity.
Defined.

Example Sqrt_meter_fails :
  is_err (units.Sqrt (units.mkValue 5 (units.mkDimension 1 0 0 0 0 0 0))) = true.
Proof. reflexivity. Qed.

Example Sqrt_negative_magnitude :
  units.Sqrt (units.mkValue (-4) (units.mkDimension 2 0 0 0 0 0 0))
  = Ok (units.mkValue nan (units.mkDimension 1 0 0 0 0 0 0)).
Proof. reflexivity. Qed.

(** ** Equality within tolerance *)

(** Case analysis on every float comparison of the goal. *)
Ltac case_float_tests :=
  repeat match goal with
         | |- context [PrimFloat.eqb ?x ?y] => destruct (PrimFloat.eqb x y)
         | |- context [PrimFloat.ltb ?x ?y] => destruct (PrimFloat.ltb x y)
         end;
  cbn [andb orb negb]; try reflexivity; try discriminate.

(** C4, as the claim states it, fails: for two tiny non-zero magnitudes
    (here 2^-70 and 2^-69) the absolute difference is below the tolerance,
    so [Equal] answers true although the relative error is 1/3. *)
Lemma Value_Equal_counterexample :
  let a := units.mkValue 0x1p-70 units.Dimension_zero in
  let b := units.mkValue 0x1p-69 units.Dimension_zero in
  units.Equal a b = true /\ Equal_as_specified a b = false.
Proof. cbv zeta. split; vm_compute; reflexivity. Qed.

(** C4 (amended). [Equal] is false when the dimensions differ.  When they
    are equal it is true exactly when the magnitudes are equal, or their
    absolute difference is below the tolerance 1e-14 (whether or not an
    operand is zero), or no operand is exactly zero and the relative error
    [|a-b| / (|a|+|b|)] is below the tolerance.  In particular it is true
    whenever the specification's wording says so. *)
Theorem Value_Equal_spec (a b : units.Value) :
  let x := units.value a in
  let y := units.value b in
  let diff := PrimFloat.abs (x - y)%float in
  let rel := (diff / (PrimFloat.abs x + PrimFloat.abs y))%float in
  (units.dim a <> units.dim b -> units.Equal a b = false)
  /\ (units.dim a = units.dim b ->
      units.Equal a b
      = ((x =? y)%float
         || (diff <? units.Equal_tolerance)%float
         || (negb (x =? 0)%float && negb (y =? 0)%float
             && (rel <? units.Equal_tolerance)%float)))
  /\ (Equal_as_specified a b = true -> units.Equal a b = true).
Proof.
  cbv zeta. unfold units.Equal, units.almostEqual, Equal_as_specified.
  split; [|split].
  - intros H. apply Dimension_eqb_neq in H. rewrite H. reflexivity.
  - intros H. apply Dimension_eqb_eq in H. rewrite H. cbn [andb].
    case_float_tests.
  - destruct (units.Dimension_eqb (units.dim a) (units.dim b)); cbn [andb].
    + case_float_tests.
    + discriminate.
Qed.

(** The table of the repository's test of [almostEqual]. *)
#[warnings="-inexact-float"] Example almostEqual_test_table :
  units.almostEqual 1.0 1.0 1e-10 = true
  /\ units.almostEqual 1.0 1.0000000001 1e-8 = true
  /\ units.almostEqual 1.0 1.001 1e-10 = false
  /\ units.almostEqual 0.0 1e-15 1e-10 = true
  /\ units.almostEqual (-1.0) (-1.0000000001) 1e-8 = true
  /\ units.almostEqual 1e10 10000000000.00001 1e-10 = true.
Proof. repeat split; vm_compute; reflexivity. Qed.

Lemma Value_Equal_spec_witness :
  units.Equal (units.mkValue 0x1p-70 units.Dimension_zero)
              (units.mkValue 0x1p-69 units.Dimension_zero) = true
  /\ units.Equal (units.mkValue 1 units.Dimension_zero)
                 (units.mkValue 0x1.8p0 units.Dimension_zero) = false.
Proof.
  split.
  - rewrite (proj1 (proj2 (Value_Equal_spec
                             (units.mkValue 0x1p-70 units.Dimension_zero)
                             (units.mkValue 0x1p-69 units.Dimension_zero))) eq_refl).
    vm_compute. reflexivity.
  - vm_compute. reflexivity.
Defined.

(** ** Vectors: dimensions of products *)

(** A vector whose components share one dimension, taken apart. *)
Lemma SameDimension_inv (v : vector.Vector3) :
  SameDimension v ->
  exists x y z d,
    v = vector.mkVector3 (units.mkValue x d) (units.mkValue y d) (units.mkValue z d).
Proof.
  destruct v as [[x dx] [y dy] [z dz]]. unfold SameDimension. cbn.
  intros [<- <-]. exists x, y, z, dx. reflexivity.
Qed.

Lemma Add_same_dim (a b : units.Value) :
  units.dim a = units.dim b ->
  units.Add a b = Ok (units.mkValue (units.value a + units.value b)%float (units.dim a)).
Proof.
  intros E. unfold units.Add. apply Dimension_eqb_eq in E. rewrite E. reflexivity.
Qed.

Lemma Subtract_same_dim (a b : units.Value) :
  units.dim a = units.dim b ->
  units.Subtract a b
  = Ok (units.mkValue (units.value a - units.value b)%float (units.dim a)).
Proof.
  intros E. unfold units.Subtract. apply Dimension_eqb_eq in E. rewrite E. reflexivity.
Qed.

(** [Dot] of two vectors with shared dimensions: the chained additions
    succeed, and the result carries the dimension of the first product. *)
Lemma Dot_same_dim (u v : vector.Vector3) :
  SameDimension u -> SameDimension v ->
  vector.Dot u v
  = units.mkValue
      (units.value (vector.X u) * units.value (vector.X v)
       + units.value (vector.Y u) * units.value (vector.Y v)
       + units.value (vector.Z u) * units.value (vector.Z v))%float
      (units.dim (units.Multiply (vector.X u) (vector.X v))).
Proof.
  intros Hu Hv.
  destruct (SameDimension_inv Hu) as (x & y & z & d & ->).
  destruct (SameDimension_inv Hv) as (x' & y' & z' & d' & ->).
  unfold vector.Dot. cbn [vector.X vector.Y vector.Z].
  rewrite (Add_same_dim (units.Multiply _ _) (units.Multiply _ _)) by reflexivity.
  cbn [units.drop_err].
  rewrite Add_same_dim by reflexivity. reflexivity.
Qed.

(** [Cross] of two vectors with shared dimensions: the three subtractions
    succeed. *)
Lemma Cross_same_dim (u v : vector.Vector3) :
  SameDimension u -> SameDimension v ->
  let d := units.dim (units.Multiply (vector.X u) (vector.X v)) in
  vector.Cross u v
  = vector.mkVector3
      (units.mkValue
         (units.value (vector.Y u) * units.value (vector.Z v)
          - units.value (vector.Z u) * units.value (vector.Y v))%float d)
      (units.mkValue
         (units.value (vector.Z u) * units.value (vector.X v)
          - units.value (vector.X u) * units.value (vector.Z v))%float d)
      (units.mkValue
         (units.value (vector.X u) * units.value (vector.Y v)
          - units.value (vector.Y u) * units.value (vector.X v))%float d).
Proof.
  intros Hu Hv.
  destruct (SameDimension_inv Hu) as (x & y & z & d & ->).
  destruct (SameDimension_inv Hv) as (x' & y' & z' & d' & ->).
  unfold vector.Cross. cbn [vector.X vector.Y vector.Z].
  rewrite !Subtract_same_dim by reflexivity. reflexivity.
Qed.

(** The exponents of [Dot(v, v)] are the doubled exponents of [v], wrapped
    to 8 bits. *)
Lemma Dot_self_exponents (v : vector.Vector3) :
  SameDimension v ->
  exponents (units.dim (vector.Dot v v))
  = map (fun e => int8.wrap (2 * e)) (exponents (vector.Dim v)).
Proof.
  intros Hv. rewrite (Dot_same_dim Hv Hv). cbn [units.dim].
  rewrite Multiply_exponents. unfold vector.Dim, units.Dim, exponents, zip_with.
  cbn [combine map fst snd].
  repeat (f_equal; try (f_equal; lia)).
Qed.

Lemma Dot_self_even (v : vector.Vector3) :
  SameDimension v ->
  Forall (fun e => Z.even e = true) (exponents (units.dim (vector.Dot v v))).
Proof.
  intros Hv. rewrite (Dot_self_exponents Hv).
  apply Forall_map, Forall_forall. intros e _.
  rewrite wrap_even, Z.even_mul. reflexivity.
Qed.

Lemma Magnitude_Ok (v : vector.Vector3) :
  SameDimension v -> is_err (vector.Magnitude v) = false.
Proof.
  intros Hv. unfold vector.Magnitude, vector.MagnitudeSquared.
  rewrite Sqrt_is_err.
  destruct (existsb Z.odd (exponents (units.dim (vector.Dot v v)))) eqn:E;
    [|reflexivity].
  apply existsb_exists in E. destruct E as (e & He & Ho).
  pose proof (Dot_self_even Hv) as Hev.
  rewrite Forall_forall in Hev. specialize (Hev e He).
  rewrite <- Z.negb_even, Hev in Ho. discriminate.
Qed.

(** ** Magnitude *)

(** The doubling of an exponent inside [Dot(v, v)] is the addition of
    [int8]: outside [-64, 63] it wraps around (64 doubled is stored as
    -128), and the result is still even. *)
Example Dot_self_doubling_wraps :
  let d := units.mkDimension 64 0 0 0 0 0 0 in
  let v := vector.mkVector3 (units.mkValue 1 d) (units.mkValue 0 d) (units.mkValue 0 d) in
  SameDimension v /\ Dimension_in_range (vector.Dim v)
  /\ units.L (units.dim (vector.Dot v v)) = (-128)%Z
  /\ is_err (vector.Magnitude v) = false.
Proof.
  cbv zeta. split; [split; reflexivity|]. split.
  - repeat constructor; cbn; discriminate.
  - split; reflexivity.
Qed.

(** C5. For a vector whose components share one dimension, [Magnitude]
    returns a value and never an error: every exponent of [Dot(v, v)] is
    the exponent of [v] doubled by the addition of [int8] (the exact double
    when the exponent lies in [-64, 63], the double wrapped around by 256
    otherwise), hence even, and the odd-exponent branch of [Sqrt] is not
    taken. *)
Theorem Vector3_Magnitude_total (v : vector.Vector3) (Hv : SameDimension v) :
  (exists mag, vector.Magnitude v = Ok mag)
  /\ exponents (units.dim (vector.Dot v v))
     = map (fun e => int8.wrap (2 * e)) (exponents (vector.Dim v))
  /\ Forall (fun e => Z.even e = true) (exponents (units.dim (vector.Dot v v)))
  /\ (Forall half_range (exponents (vector.Dim v)) ->
      exponents (units.dim (vector.Dot v v))
      = map (Z.mul 2) (exponents (vector.Dim v))).
Proof.
  split; [|split; [|split]].
  - pose proof (Magnitude_Ok Hv) as H.
    destruct (vector.Magnitude v) as [mag|msg]; [|discriminate].
    exists mag. reflexivity.
  - apply Dot_self_exponents, Hv.
  - apply Dot_self_even, Hv.
  - intros Hh. rewrite (Dot_self_exponents Hv).
    apply map_ext_in. intros e He.
    rewrite Forall_forall in Hh. specialize (Hh e He).
    apply wrap_id. unfold half_range, int8.in_range in *. lia.
Qed.

(** The velocity (3, 4, 0) m/s has magnitude 5 m/s. *)
Lemma Vector3_Magnitude_total_witness :
  let d := units.mkDimension 1 0 (-1) 0 0 0 0 in
  let v := vector.mkVector3 (units.mkValue 3 d) (units.mkValue 4 d) (units.mkValue 0 d) in
  (exists mag, vector.Magnitude v = Ok mag)
  /\ vector.Magnitude v = Ok (units.mkValue 5 d).
Proof.
  cbv zeta. split.
  - refine (proj1 (@Vector3_Magnitude_total _ _)).
    split; reflexivity.
  - reflexivity.
Defined.

(** ** Normalize *)

(** [Normalize] once [Magnitude] has returned [mag]. *)
Lemma Normalize_unfold (v : vector.Vector3) (mag : units.Value) :
  vector.Magnitude v = Ok mag ->
  vector.Normalize v
  = if (units.value mag =? 0)%float then Err "cannot normalize zero vector"
    else Ok (vector.mkVector3 (units.Divide (vector.X v) mag)
               (units.Divide (vector.Y v) mag) (units.Divide (vector.Z v) mag)).
Proof. intros E. unfold vector.Normalize. rewrite E. reflexivity. Qed.

(** Dividing an exponent by its own doubled-and-halved self cancels it when
    doubling does not overflow. *)
Lemma half_range_cancel (e : Z) :
  half_range e -> int8.sub e (int8.quo (int8.add e e) 2) = 0%Z.
Proof.
  unfold half_range, int8.sub, int8.quo, int8.add. intros H.
  rewrite (wrap_id (z := e + e)) by (unfold int8.in_range; lia).
  replace (e + e)%Z with (e * 2)%Z by lia. rewrite Z.quot_mul by lia.
  rewrite (wrap_id (z := e)) by (unfold int8.in_range; lia).
  rewrite Z.sub_diag. reflexivity.
Qed.

(** C6, as the claim states it, fails: with an exponent outside [-64, 63]
    the doubling inside [Magnitude] wraps around, and the components of the
    normalized vector are not dimensionless (here L^64 yields L^-128). *)
Lemma Vector3_Normalize_counterexample :
  let d := units.mkDimension 64 0 0 0 0 0 0 in
  let v := vector.mkVector3 (units.mkValue 1 d) (units.mkValue 0 d) (units.mkValue 0 d) in
  SameDimension v /\ Dimension_in_range (vector.Dim v)
  /\ exists w, vector.Normalize v = Ok w
               /\ units.dim (vector.X w) = units.mkDimension (-128) 0 0 0 0 0 0
               /\ units.IsDimensionless (vector.X w) = false.
Proof.
  cbv zeta. split; [split; reflexivity|]. split.
  - repeat constructor; cbn; discriminate.
  - eexists. split; [reflexivity|]. split; reflexivity.
Qed.

(** C6 (amended). For a vector whose components share one dimension,
    [Normalize] fails exactly when the raw scalar of the vector's magnitude
    is exactly zero; on success each component is the original component
    divided by the magnitude [Value]; and when every exponent of the
    vector lies in [-64, 63] every component of the result is
    dimensionless. *)
Theorem Vector3_Normalize_spec (v : vector.Vector3) (Hv : SameDimension v) :
  exists mag,
    vector.Magnitude v = Ok mag
    /\ (is_err (vector.Normalize v) = true <-> (units.Val mag =? 0)%float = true)
    /\ ((units.Val mag =? 0)%float = false ->
        vector.Normalize v
        = Ok (vector.mkVector3 (units.Divide (vector.X v) mag)
                (units.Divide (vector.Y v) mag) (units.Divide (vector.Z v) mag)))
    /\ (Forall half_range (exponents (vector.Dim v)) ->
        forall w, vector.Normalize v = Ok w ->
                  Forall (fun c => units.dim c = units.Dimension_zero) (components w)).
Proof.
  pose proof (Sqrt_Ok _ (Magnitude_Ok Hv)) as EM.
  fold (vector.MagnitudeSquared v) in EM. fold (vector.Magnitude v) in EM.
  eexists. split; [exact EM|].
  rewrite (Normalize_unfold _ EM). unfold units.Val. cbn [units.value].
  split; [|split].
  - destruct (PrimFloat.sqrt _ =? 0)%float; cbn [is_err]; split; congruence.
  - intros ->. reflexivity.
  - intros Hh w.
    destruct (PrimFloat.sqrt _ =? 0)%float; [discriminate|].
    intros E. apply Ok_inj in E. subst w.
    unfold vector.MagnitudeSquared. rewrite (Dot_same_dim Hv Hv).
    destruct (SameDimension_inv Hv) as (x & y & z & d & ->).
    apply Forall_exponents in Hh.
    unfold vector.Dim, units.Dim in Hh. cbn [vector.X units.dim] in Hh.
    destruct Hh as (? & ? & ? & ? & ? & ? & ?).
    unfold components, units.Divide, units.Multiply.
    cbn [vector.X vector.Y vector.Z units.dim units.value
           units.L units.M units.T units.I units.Θ units.N units.J].
    rewrite !half_range_cancel by assumption.
    repeat constructor.
Qed.

(** The vector (0, 0, 2) m normalizes to the dimensionless (0, 0, 1); the
    zero vector is refused. *)
Lemma Vector3_Normalize_spec_witness :
  let d := units.mkDimension 1 0 0 0 0 0 0 in
  let v := vector.mkVector3 (units.mkValue 0 d) (units.mkValue 0 d) (units.mkValue 2 d) in
  let w := vector.mkVector3 (units.Dimensionless 0) (units.Dimensionless 0)
             (units.Dimensionless 1) in
  vector.Normalize v = Ok w
  /\ Forall (fun c => units.dim c = units.Dimension_zero) (components w)
  /\ is_err (vector.Normalize (vector.Zero d)) = true.
Proof.
  cbv zeta.
  assert (vector.Normalize
            (vector.mkVector3 (units.mkValue 0 (units.mkDimension 1 0 0 0 0 0 0))
               (units.mkValue 0 (units.mkDimension 1 0 0 0 0 0 0))
               (units.mkValue 2 (units.mkDimension 1 0 0 0 0 0 0)))
          = Ok (vector.mkVector3 (units.Dimensionless 0) (units.Dimensionless 0)
                  (units.Dimensionless 1))) as E
      by (vm_compute; reflexivity).
  split; [exact E|]. split; [|vm_compute; reflexivity].
  destruct (@Vector3_Normalize_spec
              (vector.mkVector3 (units.mkValue 0 (units.mkDimension 1 0 0 0 0 0 0))
                 (units.mkValue 0 (units.mkDimension 1 0 0 0 0 0 0))
                 (units.mkValue 2 (units.mkDimension 1 0 0 0 0 0 0)))
              (conj eq_refl eq_refl)) as (mag & _ & _ & _ & H).
  apply H; [|exact E].
  repeat constructor; cbn; discriminate.
Defined.

(** ** Well-formedness of vectors *)

Lemma Add_Ok_dim (a b c : units.Value) :
  units.Add a b = Ok c -> units.dim c = units.dim a.
Proof.
  unfold units.Add. destruct (negb _); [discriminate|].
  intros E. apply Ok_inj in E. subst c. reflexivity.
Qed.

Lemma Subtract_Ok_dim (a b c : units.Value) :
  units.Subtract a b = Ok c -> units.dim c = units.dim a.
Proof.
  unfold units.Subtract. destruct (negb _); [discriminate|].
  intros E. apply Ok_inj in E. subst c. reflexivity.
Qed.

Lemma Vector3_Add_same (u v w : vector.Vector3) :
  SameDimension u -> vector.Add u v = Ok w -> SameDimension w.
Proof.
  intros [Hy Hz]. unfold vector.Add.
  destruct (units.Add (vector.X u) (vector.X v)) as [x|] eqn:Ex; [|discriminate].
  destruct (units.Add (vector.Y u) (vector.Y v)) as [y|] eqn:Ey; [|discriminate].
  destruct (units.Add (vector.Z u) (vector.Z v)) as [z|] eqn:Ez; [|discriminate].
  intros E. apply Ok_inj in E. subst w.
  apply Add_Ok_dim in Ex, Ey, Ez.
  split; cbn [vector.X vector.Y vector.Z]; congruence.
Qed.

Lemma Vector3_Subtract_same (u v w : vector.Vector3) :
  SameDimension u -> vector.Subtract u v = Ok w -> SameDimension w.
Proof.
  intros [Hy Hz]. unfold vector.Subtract.
  destruct (units.Subtract (vector.X u) (vector.X v)) as [x|] eqn:Ex; [|discriminate].
  destruct (units.Subtract (vector.Y u) (vector.Y v)) as [y|] eqn:Ey; [|discriminate].
  destruct (units.Subtract (vector.Z u) (vector.Z v)) as [z|] eqn:Ez; [|discriminate].
  intros E. apply Ok_inj in E. subst w.
  apply Subtract_Ok_dim in Ex, Ey, Ez.
  split; cbn [vector.X vector.Y vector.Z]; congruence.
Qed.

Lemma Vector3_Cross_same (u v : vector.Vector3) :
  SameDimension u -> SameDimension v -> SameDimension (vector.Cross u v).
Proof.
  intros Hu Hv. rewrite (Cross_same_dim Hu Hv). split; reflexivity.
Qed.

(** The dimension of a quotient or product depends on the dimensions of the
    operands only. *)
Lemma Divide_dim_ext (a a' b : units.Value) :
  units.dim a = units.dim a' ->
  units.dim (units.Divide a b) = units.dim (units.Divide a' b).
Proof. unfold units.Divide. cbn [units.dim]. intros ->. reflexivity. Qed.

Lemma Multiply_dim_ext (a a' b : units.Value) :
  units.dim a = units.dim a' ->
  units.dim (units.Multiply a b) = units.dim (units.Multiply a' b).
Proof. unfold units.Multiply. cbn [units.dim]. intros ->. reflexivity. Qed.

Lemma Vector3_Normalize_same (v w : vector.Vector3) :
  SameDimension v -> vector.Normalize v = Ok w -> SameDimension w.
Proof.
  intros [Hy Hz]. unfold vector.Normalize.
  destruct (vector.Magnitude v) as [mag|]; [|discriminate].
  destruct (units.Val mag =? 0)%float; [discriminate|].
  intros E. apply Ok_inj in E. subst w.
  split; cbn [vector.X vector.Y vector.Z]; apply Divide_dim_ext; assumption.
Qed.

Lemma Vector3_ProjectOnto_same (u v w : vector.Vector3) :
  SameDimension v -> vector.ProjectOnto u v = Ok w -> SameDimension w.
Proof.
  intros [Hy Hz]. unfold vector.ProjectOnto.
  destruct (units.Val (vector.MagnitudeSquared v) =? 0)%float; [discriminate|].
  intros E. apply Ok_inj in E. subst w.
  split; cbn [vector.X vector.Y vector.Z]; apply Multiply_dim_ext; assumption.
Qed.

Lemma Vector3_New_same (x y z : units.Value) (w : vector.Vector3) :
  vector.New x y z = Ok w -> SameDimension w.
Proof.
  unfold vector.New, units.Dim.
  destruct (units.Dimension_eqb (units.dim x) (units.dim y)) eqn:Exy; [|discriminate].
  destruct (units.Dimension_eqb (units.dim x) (units.dim z)) eqn:Exz; [|discriminate].
  cbn [negb orb]. intros E. apply Ok_inj in E. subst w.
  apply Dimension_eqb_eq in Exy, Exz. split; assumption.
Qed.

(** [New] succeeds exactly on components that share one dimension. *)
Lemma Vector3_New_Ok (x y z : units.Value) :
  units.dim x = units.dim y -> units.dim x = units.dim z ->
  vector.New x y z = Ok (vector.mkVector3 x y z).
Proof.
  intros Hy Hz. unfold vector.New, units.Dim.
  apply Dimension_eqb_eq in Hy, Hz. rewrite Hy, Hz. reflexivity.
Qed.

(** C7. Sharing one dimension among the three components is an invariant:
    from vectors that have it, [Add], [Subtract], [Normalize] and
    [ProjectOnto] (when they return without error), [Scale], [Negate] and
    [Cross] return a vector that has it; [New] (on success), [Zero],
    [UnitX], [UnitY] and [UnitZ] establish it. *)
Theorem Vector3_SameDimension_invariant
  (u v : vector.Vector3) (Hu : SameDimension u) (Hv : SameDimension v) :
  (forall w, vector.Add u v = Ok w -> SameDimension w)
  /\ (forall w, vector.Subtract u v = Ok w -> SameDimension w)
  /\ (forall k, SameDimension (vector.Scale u k))
  /\ SameDimension (vector.Negate u)
  /\ SameDimension (vector.Cross u v)
  /\ (forall w, vector.Normalize u = Ok w -> SameDimension w)
  /\ (forall w, vector.ProjectOnto u v = Ok w -> SameDimension w)
  /\ (forall x y z w, vector.New x y z = Ok w -> SameDimension w)
  /\ (forall d, SameDimension (vector.Zero d) /\ SameDimension (vector.UnitX d)
                /\ SameDimension (vector.UnitY d) /\ SameDimension (vector.UnitZ d)).
Proof.
  split; [intros w; apply Vector3_Add_same, Hu|].
  split; [intros w; apply Vector3_Subtract_same, Hu|].
  split; [intros k; exact Hu|].
  split; [exact Hu|].
  split; [apply Vector3_Cross_same; assumption|].
  split; [intros w; apply Vector3_Normalize_same, Hu|].
  split; [intros w; apply Vector3_ProjectOnto_same, Hv|].
  split; [intros x y z w; apply Vector3_New_same|].
  intros d. repeat split.
Qed.

(** The operations return on the vectors (1, 2, 3) m and (4, 5, 6) m, and
    their results share one dimension. *)
Lemma Vector3_SameDimension_invariant_witness :
  let d := units.mkDimension 1 0 0 0 0 0 0 in
  let u := vector.mkVector3 (units.mkValue 1 d) (units.mkValue 2 d) (units.mkValue 3 d) in
  let v := vector.mkVector3 (units.mkValue 4 d) (units.mkValue 5 d) (units.mkValue 6 d) in
  (exists w, vector.Add u v = Ok w /\ SameDimension w)
  /\ (exists w, vector.Subtract u v = Ok w /\ SameDimension w)
  /\ (exists w, vector.Normalize u = Ok w /\ SameDimension w)
  /\ (exists w, vector.ProjectOnto u v = Ok w /\ SameDimension w)
  /\ (exists w, vector.New (vector.X u) (vector.Y u) (vector.Z u) = Ok w /\ SameDimension w).
Proof.
  cbv zeta.
  pose proof (@Vector3_SameDimension_invariant
                (vector.mkVector3 (units.mkValue 1 (units.mkDimension 1 0 0 0 0 0 0))
                   (units.mkValue 2 (units.mkDimension 1 0 0 0 0 0 0))
                   (units.mkValue 3 (units.mkDimension 1 0 0 0 0 0 0)))
                (vector.mkVector3 (units.mkValue 4 (units.mkDimension 1 0 0 0 0 0 0))
                   (units.mkValue 5 (units.mkDimension 1 0 0 0 0 0 0))
                   (units.mkValue 6 (units.mkDimension 1 0 0 0 0 0 0)))
                (conj eq_refl eq_refl) (conj eq_refl eq_refl))
    as (HA & HS & _ & _ & _ & HN & HP & HNew & _).
  repeat apply conj;
    match goal with
    | |- exists w, ?op = Ok w /\ _ =>
        destruct op as [w|msg] eqn:E; [|vm_compute in E; discriminate E];
        exists w; split; [reflexivity|]
    end.
  - apply HA. reflexivity.
  - apply HS. reflexivity.
  - apply HN. reflexivity.
  - apply HP. reflexivity.
  - eapply HNew. exact E.
Defined.

(** ** Unit vectors *)

(** C9 is what the documentation of [UnitZ] promises, and the code breaks it:
    [UnitZ] returns the vector of [UnitY], with magnitude 1 in the Y
    component and 0 in the Z component. *)
Theorem UnitZ_is_UnitY (d : units.Dimension) :
  vector.UnitZ d = vector.UnitY d
  /\ units.Val (vector.X (vector.UnitZ d)) = 0%float
  /\ units.Val (vector.Y (vector.UnitZ d)) = 1%float
  /\ units.Val (vector.Z (vector.UnitZ d)) = 0%float
  /\ Forall (fun c => units.Dim c = d) (components (vector.UnitZ d)).
Proof. repeat split. repeat constructor. Qed.

(** ** Rendering of dimensions *)

Section Rendering.
Local Open Scope string_scope.

Lemma string_append_assoc (s1 s2 s3 : string) :
  (s1 ++ s2) ++ s3 = s1 ++ (s2 ++ s3).
Proof.
  induction s1 as [|c s1 IH]; cbn.
  - reflexivity.
  - rewrite IH. reflexivity.
Qed.

Lemma string_append_nil_r (s : string) : s ++ "" = s.
Proof.
  induction s as [|c s IH]; cbn.
  - reflexivity.
  - rewrite IH. reflexivity.
Qed.

(** After the first part, the loop puts one space before every part. *)
Lemma join_parts_succ (parts : list string) :
  forall (i : nat) (res : string),
    units.join_parts (S i) parts res
    = res ++ fold_right (fun p acc => " " ++ p ++ acc) "" parts.
Proof.
  induction parts as [|p rest IH]; intros i res; cbn [units.join_parts fold_right].
  - rewrite string_append_nil_r. reflexivity.
  - cbn [Nat.ltb Nat.leb]. rewrite IH.
    rewrite !string_append_assoc. reflexivity.
Qed.

Lemma concat_space (rest : list string) :
  forall p : string,
    String.concat " " (p :: rest)
    = p ++ fold_right (fun q acc => " " ++ q ++ acc) "" rest.
Proof.
  induction rest as [|q rest IH]; intros p.
  - cbn. rewrite string_append_nil_r. reflexivity.
  - change (String.concat " " (p :: q :: rest))
      with (p ++ " " ++ String.concat " " (q :: rest)).
    rewrite IH. reflexivity.
Qed.

(** The loop of [Dimension.String] joins a non-empty list of parts with
    single spaces. *)
Lemma join_parts_concat (p : string) (rest : list string) (res : string) :
  units.join_parts 0 (p :: rest) res = res ++ String.concat " " (p :: rest).
Proof.
  cbn [units.join_parts Nat.ltb Nat.leb].
  rewrite join_parts_succ, concat_space, string_append_assoc. reflexivity.
Qed.

Ltac case_exponents d :=
  destruct (units.L d =? 0)%Z eqn:?, (units.M d =? 0)%Z eqn:?,
    (units.T d =? 0)%Z eqn:?, (units.I d =? 0)%Z eqn:?,
    (units.Θ d =? 0)%Z eqn:?, (units.N d =? 0)%Z eqn:?,
    (units.J d =? 0)%Z eqn:?.

(** The list that [Dimension.String] accumulates by conditional appends is
    the list of tokens of the non-zero exponents. *)
Lemma parts_render_tokens (d : units.Dimension) :
  (let parts := @nil string in
   let parts := if negb (units.L d =? 0)%Z then (parts ++ [("L^" ++ fmt_d (units.L d))%string])%list else parts in
   let parts := if negb (units.M d =? 0)%Z then (parts ++ [("M^" ++ fmt_d (units.M d))%string])%list else parts in
   let parts := if negb (units.T d =? 0)%Z then (parts ++ [("T^" ++ fmt_d (units.T d))%string])%list else parts in
   let parts := if negb (units.I d =? 0)%Z then (parts ++ [("I^" ++ fmt_d (units.I d))%string])%list else parts in
   let parts := if negb (units.Θ d =? 0)%Z then (parts ++ [("Θ^" ++ fmt_d (units.Θ d))%string])%list else parts in
   let parts := if negb (units.N d =? 0)%Z then (parts ++ [("N^" ++ fmt_d (units.N d))%string])%list else parts in
   let parts := if negb (units.J d =? 0)%Z then (parts ++ [("J^" ++ fmt_d (units.J d))%string])%list else parts in
   parts)
  = render_tokens d.
Proof.
  unfold render_tokens, exponents, symbols.
  cbn [combine filter snd fst].
  case_exponents d; reflexivity.
Qed.

Lemma render_tokens_nil (d : units.Dimension) :
  render_tokens d = [] <-> d = units.Dimension_zero.
Proof.
  rewrite <- Dimension_eqb_eq.
  unfold render_tokens, exponents, symbols, units.Dimension_eqb.
  cbn [combine filter snd fst units.Dimension_zero
         units.L units.M units.T units.I units.Θ units.N units.J].
  case_exponents d; cbn; split; congruence.
Qed.

(** C10. [Dimension.String] lists the non-zero exponents only, each as a
    [SYMBOL^exponent] token, in the order L, M, T, I, Θ, N, J, separated by
    single spaces and enclosed in square brackets; the all-zero dimension
    renders exactly as [[1]]. *)
Theorem Dimension_String_spec (d : units.Dimension) :
  units.Dimension_String d = Render d
  /\ (units.Dimension_String d = "[1]" <-> d = units.Dimension_zero)
  /\ (d <> units.Dimension_zero ->
      units.Dimension_String d = "[" ++ String.concat " " (render_tokens d) ++ "]").
Proof.
  assert (d <> units.Dimension_zero ->
          units.Dimension_String d = "[" ++ String.concat " " (render_tokens d) ++ "]")
    as Hne.
  { intros Hd. unfold units.Dimension_String.
    apply Dimension_eqb_neq in Hd. rewrite Hd.
    rewrite parts_render_tokens.
    destruct (render_tokens d) as [|p rest] eqn:R.
    - apply render_tokens_nil in R. apply Dimension_eqb_eq in R. congruence.
    - rewrite join_parts_concat, string_append_assoc. reflexivity. }
  assert (units.Dimension_String units.Dimension_zero = "[1]") as Hz by reflexivity.
  split; [|split; [|exact Hne]].
  - unfold Render. destruct (render_tokens d) as [|p rest] eqn:R.
    + apply render_tokens_nil in R. subst d. exact Hz.
    + apply Hne. intros ->. discriminate R.
  - split.
    + intros E.
      destruct (units.Dimension_eqb d units.Dimension_zero) eqn:Ed;
        [apply Dimension_eqb_eq, Ed|].
      apply Dimension_eqb_neq in Ed. rewrite (Hne Ed) in E.
      destruct (render_tokens d) as [|p rest] eqn:R;
        [apply render_tokens_nil, R|].
      exfalso. revert R E. unfold render_tokens, exponents, symbols, token.
      cbn [combine filter snd fst map].
      case_exponents d; cbn [negb map fst snd];
        intros [= <- <-]; cbn; discriminate.
    + intros ->. exact Hz.
Qed.

Example String_velocity :
  units.Dimension_String (units.mkDimension 1 0 (-1) 0 0 0 0) = "[L^1 T^-1]".
Proof. reflexivity. Qed.

Example String_all :
  units.Dimension_String (units.mkDimension 2 1 (-2) 3 (-4) 5 (-128))
  = "[L^2 M^1 T^-2 I^3 Θ^-4 N^5 J^-128]".
Proof. reflexivity. Qed.
End Rendering.

(** ** IEEE-754 facts

    Commutativity of the product and antisymmetry of the difference, from
    the specification of binary floating-point arithmetic. *)

Section SpecFloatFacts.
Variables prec emax : Z.

Lemma binary_round_aux_opp (s : bool) (m e : Z) (l : location) :
  binary_round_aux prec emax (negb s) m e l
  = SFopp (binary_round_aux prec emax s m e l).
Proof.
  unfold binary_round_aux.
  destruct (shr_fexp prec emax m e l) as [mrs' e'].
  destruct (shr_fexp prec emax _ e' loc_Exact) as [mrs'' e''].
  destruct (shr_m mrs''); [reflexivity| |reflexivity].
  destruct (Z.leb e'' (emax - prec)); reflexivity.
Qed.

Lemma binary_round_opp (s : bool) (m : positive) (e : Z) :
  binary_round prec emax (negb s) m e = SFopp (binary_round prec emax s m e).
Proof.
  unfold binary_round.
  destruct (shl_align m e _) as [mz ez].
  apply binary_round_aux_opp.
Qed.

Lemma binary_normalize_opp (m e : Z) :
  m <> 0%Z ->
  binary_normalize prec emax (- m) e false
  = SFopp (binary_normalize prec emax m e false).
Proof.
  destruct m as [|p|p]; intros H; [contradiction| |]; cbn [Z.opp binary_normalize].
  - apply (binary_round_opp false).
  - change false with (negb true) at 1. rewrite <- (binary_round_opp true). reflexivity.
Qed.

Lemma SFmul_comm (x y : spec_float) : SFmul prec emax x y = SFmul prec emax y x.
Proof.
  destruct x as [sx|sx| |sx mx ex], y as [sy|sy| |sy my ey]; cbn [SFmul];
    rewrite ?(xorb_comm sx sy); try reflexivity.
  rewrite (Pos.mul_comm mx my), (Z.add_comm ex ey). reflexivity.
Qed.

Lemma SFsub_antisym (x y : spec_float) :
  SFsub prec emax x y = SFopp (SFsub prec emax y x)
  \/ exists s s', SFsub prec emax x y = S754_zero s
                  /\ SFopp (SFsub prec emax y x) = S754_zero s'.
Proof.
  destruct x as [[]|[]| |sx mx ex], y as [[]|[]| |sy my ey];
    cbn [SFsub SFopp negb];
    try (left; rewrite ?negb_involutive; reflexivity);
    try (right; eexists; eexists; split; reflexivity).
  rewrite (Z.min_comm ey ex).
  set (a := cond_Zopp sx (Zpos (fst (shl_align mx ex (Z.min ex ey))))).
  set (b := cond_Zopp sy (Zpos (fst (shl_align my ey (Z.min ex ey))))).
  destruct (Z.eq_dec (b - a) 0) as [E|E].
  - right. rewrite E. replace (a - b)%Z with 0%Z by lia. cbn. eauto.
  - left. replace (a - b)%Z with (- (b - a))%Z by lia.
    rewrite binary_normalize_opp by exact E.
    reflexivity.
Qed.

End SpecFloatFacts.

(** The same facts on binary64. *)

Lemma float_mul_comm (x y : float) : (x * y = y * x)%float.
Proof.
  apply Prim2SF_inj. rewrite !mul_spec. apply SFmul_comm.
Qed.

(** [p - q] and [-(q - p)] are the same float, except that both may be
    zeros of opposite sign. *)
Lemma float_sub_antisym (p q : float) :
  (p - q = - (q - p))%float
  \/ ((p - q =? 0) = true /\ (- (q - p) =? 0) = true
      /\ (p - q =? - (q - p)) = true)%float.
Proof.
  destruct (SFsub_antisym prec emax (Prim2SF p) (Prim2SF q)) as [E|(s & s' & E1 & E2)].
  - left. apply Prim2SF_inj. rewrite opp_spec, !sub_spec. exact E.
  - right. rewrite !eqb_spec, opp_spec, !sub_spec.
    unfold SF64sub. rewrite E1, E2. repeat split; reflexivity.
Qed.

(** ** Cross product *)

Lemma Multiply_dim_comm (a b : units.Value) :
  units.dim (units.Multiply a b) = units.dim (units.Multiply b a).
Proof.
  unfold units.Multiply, int8.add. cbn [units.dim].
  rewrite (Z.add_comm (units.L (units.dim a))), (Z.add_comm (units.M (units.dim a))),
    (Z.add_comm (units.T (units.dim a))), (Z.add_comm (units.I (units.dim a))),
    (Z.add_comm (units.Θ (units.dim a))), (Z.add_comm (units.N (units.dim a))),
    (Z.add_comm (units.J (units.dim a))).
  reflexivity.
Qed.

(** One component of [Cross(u, v)] against the same component of
    [Negate(Cross(v, u))], on the magnitudes. *)
Lemma cross_component_antisym (a b c d : float) :
  let x := (a * b - c * d)%float in
  let y := (- (d * c - b * a))%float in
  (x = y \/ ((x =? 0)%float = true /\ (y =? 0)%float = true))
  /\ (is_nan x = false -> (x =? y)%float = true).
Proof.
  cbv zeta. rewrite (float_mul_comm d c), (float_mul_comm b a).
  destruct (float_sub_antisym (a * b) (c * d)) as [E|(E1 & E2 & E3)].
  - split; [left; exact E|]. rewrite <- E. unfold is_nan.
    destruct (_ =? _)%float; [reflexivity|discriminate].
  - split; [right; split; assumption|]. intros _. exact E3.
Qed.

(** C8, as the claim states it, fails: when the products overflow the
    components of the cross product are NaN, and a NaN is equal to nothing,
    neither under [==] nor under [Value.Equal]. *)
Lemma Cross_anticommutative_counterexample :
  let d := units.mkDimension 1 0 0 0 0 0 0 in
  let u := vector.mkVector3 (units.mkValue 0 d) (units.mkValue 0x1p600 d)
             (units.mkValue 0x1p600 d) in
  let v := vector.mkVector3 (units.mkValue 0 d) (units.mkValue 0x1p600 d)
             (units.mkValue 0x1p601 d) in
  let a := vector.X (vector.Cross u v) in
  let b := vector.X (vector.Negate (vector.Cross v u)) in
  SameDimension u /\ SameDimension v
  /\ (units.value a =? units.value b)%float = false
  /\ units.Equal a b = false.
Proof.
  cbv zeta. split; [split; reflexivity|]. split; [split; reflexivity|].
  split; vm_compute; reflexivity.
Qed.

(** C8 (amended). For vectors whose components share one dimension each,
    [Cross(u, v)] and [Negate(Cross(v, u))] agree component by component:
    the dimensions are equal, and the magnitudes are the same float or are
    both zero (possibly of opposite sign); hence, whenever the component is
    not NaN, the magnitudes are equal under [==] and the components are
    equal under [Value.Equal]. *)
Theorem Cross_anticommutative
  (u v : vector.Vector3) (Hu : SameDimension u) (Hv : SameDimension v) :
  Forall2
    (fun a b =>
       units.dim a = units.dim b
       /\ (units.value a = units.value b
           \/ ((units.value a =? 0)%float = true /\ (units.value b =? 0)%float = true))
       /\ (is_nan (units.value a) = false ->
           (units.value a =? units.value b)%float = true /\ units.Equal a b = true))
    (components (vector.Cross u v))
    (components (vector.Negate (vector.Cross v u))).
Proof.
  rewrite (Cross_same_dim Hu Hv), (Cross_same_dim Hv Hu).
  unfold components, vector.Negate, units.Negate.
  cbn [vector.X vector.Y vector.Z units.value units.dim].
  assert (forall a b c d : float,
             (fun x y =>
                units.dim x = units.dim y
                /\ (units.value x = units.value y
                    \/ ((units.value x =? 0)%float = true
                        /\ (units.value y =? 0)%float = true))
                /\ (is_nan (units.value x) = false ->
                    (units.value x =? units.value y)%float = true
                    /\ units.Equal x y = true))
               (units.mkValue (a * b - c * d)%float
                  (units.dim (units.Multiply (vector.X u) (vector.X v))))
               (units.mkValue (- (d * c - b * a))%float
                  (units.dim (units.Multiply (vector.X v) (vector.X u))))) as H.
  { intros a b c d. cbn beta. cbn [units.value units.dim].
    destruct (cross_component_antisym a b c d) as [H1 H2].
    split; [apply Multiply_dim_comm|]. split; [exact H1|].
    intros Hn. specialize (H2 Hn). split; [exact H2|].
    unfold units.Equal, units.almostEqual. cbn [units.value units.dim].
    rewrite H2, (Multiply_dim_comm (vector.X u) (vector.X v)), Dimension_eqb_refl.
    reflexivity. }
  constructor; [apply H|]. constructor; [apply H|]. constructor; [apply H|].
  constructor.
Qed.

(** The test of the repository: (1, 2, 3) m and (4, 5, 6) m, whose cross
    product (-3, 6, -3) m^2 has no NaN component. *)
Lemma Cross_anticommutative_witness :
  let d := units.mkDimension 1 0 0 0 0 0 0 in
  let u := vector.mkVector3 (units.mkValue 1 d) (units.mkValue 2 d) (units.mkValue 3 d) in
  let v := vector.mkVector3 (units.mkValue 4 d) (units.mkValue 5 d) (units.mkValue 6 d) in
  Forall2 (fun a b => units.Equal a b = true)
    (components (vector.Cross u v)) (components (vector.Negate (vector.Cross v u)))
  /\ vector.Cross u v
     = vector.mkVector3 (units.mkValue (-3) (units.mkDimension 2 0 0 0 0 0 0))
         (units.mkValue 6 (units.mkDimension 2 0 0 0 0 0 0))
         (units.mkValue (-3) (units.mkDimension 2 0 0 0 0 0 0)).
Proof.
  cbv zeta. split; [|vm_compute; reflexivity].
  pose proof (@Cross_anticommutative
                (vector.mkVector3 (units.mkValue 1 (units.mkDimension 1 0 0 0 0 0 0))
                   (units.mkValue 2 (units.mkDimension 1 0 0 0 0 0 0))
                   (units.mkValue 3 (units.mkDimension 1 0 0 0 0 0 0)))
                (vector.mkVector3 (units.mkValue 4 (units.mkDimension 1 0 0 0 0 0 0))
                   (units.mkValue 5 (units.mkDimension 1 0 0 0 0 0 0))
                   (units.mkValue 6 (units.mkDimension 1 0 0 0 0 0 0)))
                (conj eq_refl eq_refl) (conj eq_refl eq_refl)) as H.
  unfold components in *.
  apply Forall2_cons_iff in H. destruct H as [(_ & _ & H1) H].
  apply Forall2_cons_iff in H. destruct H as [(_ & _ & H2) H].
  apply Forall2_cons_iff in H. destruct H as [(_ & _ & H3) _].
  constructor; [|constructor; [|constructor; [|constructor]]].
  - apply H1. vm_compute. reflexivity.
  - apply H2. vm_compute. reflexivity.
  - apply H3. vm_compute. reflexivity.
Defined.

(** Equal products cancel to zeros of opposite sign: the two sides are then
    equal under [==] without being the same float. *)
Example Cross_signed_zero :
  let d := units.mkDimension 1 0 0 0 0 0 0 in
  let u := vector.mkVector3 (units.mkValue 1 d) (units.mkValue 2 d) (units.mkValue 3 d) in
  let v := vector.mkVector3 (units.mkValue 2 d) (units.mkValue 4 d) (units.mkValue 6 d) in
  let a := units.value (vector.X (vector.Cross u v)) in
  let b := units.value (vector.X (vector.Negate (vector.Cross v u))) in
  (a =? b)%float = true /\ Prim2SF a = S754_zero false /\ Prim2SF b = S754_zero true.
Proof. cbv zeta. repeat split; vm_compute; reflexivity. Qed.

(** * Further properties of the code *)

(** ** More IEEE-754 facts *)

Section SpecFloatAlgebra.
Variables prec emax : Z.

Lemma SFopp_involutive (x : spec_float) : SFopp (SFopp x) = x.
Proof. destruct x as [s|s| |s m e]; cbn; rewrite ?negb_involutive; reflexivity. Qed.

Lemma SFabs_opp (x : spec_float) : SFabs (SFopp x) = SFabs x.
Proof. destruct x; reflexivity. Qed.

Lemma SFabs_idem (x : spec_float) : SFabs (SFabs x) = SFabs x.
Proof. destruct x; reflexivity. Qed.

Lemma SFadd_comm (x y : spec_float) : SFadd prec emax x y = SFadd prec emax y x.
Proof.
  destruct x as [[]|[]| |sx mx ex], y as [[]|[]| |sy my ey]; try reflexivity.
  cbn [SFadd]. rewrite (Z.min_comm ey ex), Z.add_comm. reflexivity.
Qed.

Lemma cond_Zopp_negb (s : bool) (m : Z) : cond_Zopp (negb s) m = (- cond_Zopp s m)%Z.
Proof. destruct s; cbn [cond_Zopp negb]; lia. Qed.

Lemma SFsub_add_opp (x y : spec_float) :
  SFsub prec emax x y = SFadd prec emax x (SFopp y).
Proof.
  destruct x as [[]|[]| |sx mx ex], y as [[]|[]| |sy my ey]; try reflexivity.
  cbn [SFsub SFadd SFopp]. rewrite cond_Zopp_negb.
  rewrite <- Z.add_opp_r. reflexivity.
Qed.

Lemma SFcompare_antisym (x y : spec_float) :
  SFcompare y x = option_map CompOpp (SFcompare x y).
Proof.
  destruct x as [[]|[]| |[] mx ex], y as [[]|[]| |[] my ey]; try reflexivity;
    cbn [SFcompare option_map]; f_equal;
    rewrite (Z.compare_antisym ex ey);
    destruct (ex ?= ey)%Z; cbn [CompOpp]; try reflexivity;
    change (Pos.compare_cont Eq my mx) with (Pos.compare my mx);
    change (Pos.compare_cont Eq mx my) with (Pos.compare mx my);
    rewrite (Pos.compare_antisym mx my); destruct (mx ?= my)%positive; reflexivity.
Qed.

Lemma SFeqb_sym (x y : spec_float) : SFeqb x y = SFeqb y x.
Proof.
  unfold SFeqb. rewrite (SFcompare_antisym x y).
  destruct (SFcompare x y) as [[]|]; reflexivity.
Qed.

(** Without NaN, [not (y < x)] is [x <= y]. *)
Lemma SFleb_of_not_ltb (x y : spec_float) :
  x <> S754_nan -> y <> S754_nan -> SFltb y x = false -> SFleb x y = true.
Proof.
  unfold SFltb, SFleb. rewrite (SFcompare_antisym x y).
  intros Hx Hy.
  destruct (SFcompare x y) as [[]|] eqn:E; cbn; try reflexivity; try discriminate.
  destruct x as [[]|[]| |[] mx ex], y as [[]|[]| |[] my ey]; cbn in E;
    congruence.
Qed.

Lemma SFmul_opp_opp (x y : spec_float) :
  SFmul prec emax (SFopp x) (SFopp y) = SFmul prec emax x y.
Proof.
  destruct x as [sx|sx| |sx mx ex], y as [sy|sy| |sy my ey]; cbn [SFmul SFopp];
    rewrite ?xorb_negb_negb; reflexivity.
Qed.

(** Comparing equal to a zero is being a zero, of either sign. *)
Lemma SFeqb_zero (x : spec_float) (s : bool) :
  SFeqb x (S754_zero s) = true <-> exists s', x = S754_zero s'.
Proof.
  destruct x as [s0|[]| |[] m e]; cbn; split;
    try discriminate; try (intros [s' E]; discriminate E).
  - intros _. exists s0. reflexivity.
  - reflexivity.
Qed.

(** Only NaN is not equal to itself. *)
Lemma SFeqb_refl_false (x : spec_float) : SFeqb x x = false <-> x = S754_nan.
Proof.
  unfold SFeqb. destruct x as [s|[]| |[] m e]; cbn [SFcompare];
    try (split; [discriminate|discriminate]);
    try (split; reflexivity).
  - rewrite Z.compare_refl.
    change (Pos.compare_cont Eq m m) with (Pos.compare m m).
    rewrite Pos.compare_refl. cbn. split; discriminate.
  - rewrite Z.compare_refl.
    change (Pos.compare_cont Eq m m) with (Pos.compare m m).
    rewrite Pos.compare_refl. split; discriminate.
Qed.

Lemma SFsub_abs_comm (x y : spec_float) :
  SFabs (SFsub prec emax x y) = SFabs (SFsub prec emax y x).
Proof.
  destruct (SFsub_antisym prec emax x y) as [E|(s & s' & E1 & E2)].
  - rewrite E. apply SFabs_opp.
  - rewrite E1. rewrite <- (SFopp_involutive (SFsub prec emax y x)), E2.
    reflexivity.
Qed.
End SpecFloatAlgebra.

(** The same facts on binary64. *)

Lemma float_opp_involutive (x : float) : (- - x = x)%float.
Proof. apply Prim2SF_inj. rewrite !opp_spec. apply SFopp_involutive. Qed.

Lemma float_abs_opp (x : float) : PrimFloat.abs (- x) = PrimFloat.abs x.
Proof. apply Prim2SF_inj. rewrite !abs_spec, opp_spec. apply SFabs_opp. Qed.

Lemma float_abs_idem (x : float) : PrimFloat.abs (PrimFloat.abs x) = PrimFloat.abs x.
Proof. apply Prim2SF_inj. rewrite !abs_spec. apply SFabs_idem. Qed.

Lemma float_add_comm (x y : float) : (x + y = y + x)%float.
Proof. apply Prim2SF_inj. rewrite !add_spec. apply SFadd_comm. Qed.

Lemma float_sub_add_opp (x y : float) : (x - y = x + - y)%float.
Proof.
  apply Prim2SF_inj. rewrite sub_spec, add_spec, opp_spec. apply SFsub_add_opp.
Qed.

Lemma float_eqb_sym (x y : float) : (x =? y)%float = (y =? x)%float.
Proof. rewrite !eqb_spec. apply SFeqb_sym. Qed.

Lemma float_abs_sub_comm (x y : float) :
  PrimFloat.abs (x - y) = PrimFloat.abs (y - x).
Proof.
  apply Prim2SF_inj. rewrite !abs_spec, !sub_spec. apply SFsub_abs_comm.
Qed.

Lemma float_mul_opp_opp (x y : float) : (- x * - y = x * y)%float.
Proof.
  apply Prim2SF_inj. rewrite !mul_spec, !opp_spec. apply SFmul_opp_opp.
Qed.

Lemma is_nan_spec (x : float) : is_nan x = true <-> Prim2SF x = S754_nan.
Proof.
  unfold is_nan. rewrite eqb_spec, negb_true_iff. apply SFeqb_refl_false.
Qed.

Lemma float_eqb_zero (x : float) :
  (x =? 0)%float = true <-> exists s, Prim2SF x = S754_zero s.
Proof. rewrite eqb_spec. apply SFeqb_zero. Qed.

(** ** More arithmetic of [int8] *)
Section Int8Algebra.
Local Open Scope Z_scope.

(** Wrapping changes a number by a multiple of 256. *)
Lemma wrap_decomp (z : Z) : exists k, int8.wrap z = z + 256 * k.
Proof.
  unfold int8.wrap. exists (- ((z + 128) / 256)).
  pose proof (Z.div_mod (z + 128) 256 ltac:(lia)). lia.
Qed.

Lemma wrap_shift (z k : Z) : int8.wrap (z + 256 * k) = int8.wrap z.
Proof.
  unfold int8.wrap. f_equal.
  replace (z + 256 * k + 128) with (z + 128 + k * 256) by lia.
  apply Z_mod_plus_full.
Qed.

Lemma wrap_add_l (x y : Z) : int8.wrap (int8.wrap x + y) = int8.wrap (x + y).
Proof.
  destruct (wrap_decomp x) as [k ->].
  replace (x + 256 * k + y) with (x + y + 256 * k) by lia. apply wrap_shift.
Qed.

Lemma wrap_add_r (x y : Z) : int8.wrap (x + int8.wrap y) = int8.wrap (x + y).
Proof. rewrite Z.add_comm, wrap_add_l, Z.add_comm. reflexivity. Qed.

Lemma wrap_sub_l (x y : Z) : int8.wrap (int8.wrap x - y) = int8.wrap (x - y).
Proof. unfold Z.sub. apply wrap_add_l. Qed.

Lemma wrap_sub_r (x y : Z) : int8.wrap (x - int8.wrap y) = int8.wrap (x - y).
Proof.
  destruct (wrap_decomp y) as [k ->].
  replace (x - (y + 256 * k)) with (x - y + 256 * (- k)) by lia. apply wrap_shift.
Qed.

Lemma wrap_mul_l (x y : Z) : int8.wrap (int8.wrap x * y) = int8.wrap (x * y).
Proof.
  destruct (wrap_decomp x) as [k ->].
  replace ((x + 256 * k) * y) with (x * y + 256 * (k * y)) by lia. apply wrap_shift.
Qed.

Lemma wrap_mul_r (x y : Z) : int8.wrap (x * int8.wrap y) = int8.wrap (x * y).
Proof. rewrite Z.mul_comm, wrap_mul_l, Z.mul_comm. reflexivity. Qed.

Lemma wrap_idem (z : Z) : int8.wrap (int8.wrap z) = int8.wrap z.
Proof. apply wrap_id, wrap_in_range. Qed.

(** Two [int8] values with a zero wrapped difference are equal. *)
Lemma sub_zero_eq (a b : Z) :
  int8.in_range a -> int8.in_range b -> int8.sub a b = 0 -> a = b.
Proof.
  unfold int8.sub, int8.in_range. intros Ha Hb H.
  destruct (wrap_decomp (a - b)) as [k E]. rewrite H in E. lia.
Qed.
End Int8Algebra.

(** ** Laws of the arithmetic of values *)

(** Two dimensions with the same exponent lists are equal. *)
Lemma exponents_inj (d e : units.Dimension) : exponents d = exponents e -> d = e.
Proof.
  destruct d, e. unfold exponents. cbn. intros [= -> -> -> -> -> -> ->]. reflexivity.
Qed.

(** X1. [Value.Add] is commutative: it fails on [(a, b)] exactly when it
    fails on [(b, a)], and on equal dimensions both orders return the same
    value, bit for bit. *)
Theorem Value_Add_comm (a b : units.Value) :
  is_err (units.Add a b) = is_err (units.Add b a)
  /\ (units.dim a = units.dim b -> units.Add a b = units.Add b a).
Proof.
  split.
  - unfold units.Add.
    destruct (units.Dimension_eqb (units.dim a) (units.dim b)) eqn:E.
    + apply Dimension_eqb_eq in E. rewrite E, Dimension_eqb_refl. reflexivity.
    + apply Dimension_eqb_neq in E.
      assert (units.dim b <> units.dim a) as E' by congruence.
      apply Dimension_eqb_neq in E'. rewrite E'. reflexivity.
  - intros E. rewrite (Add_same_dim a b E), (Add_same_dim b a (eq_sym E)).
    rewrite float_add_comm, E. reflexivity.
Qed.

Lemma Multiply_comm (a b : units.Value) :
  units.Multiply a b = units.Multiply b a.
Proof.
  destruct (units.Multiply a b) as [x d] eqn:E1.
  destruct (units.Multiply b a) as [y e] eqn:E2.
  assert (x = y) as ->.
  { apply (f_equal units.value) in E1, E2. cbn [units.value units.Multiply] in E1, E2.
    subst. apply float_mul_comm. }
  f_equal.
  apply (f_equal units.dim) in E1, E2. cbn [units.dim] in E1, E2.
  rewrite <- E1, <- E2. apply Multiply_dim_comm.
Qed.

(** X2. [Value.Multiply] is commutative, on magnitudes and dimensions, and
    it is associative on dimensions, also when exponents wrap around. *)
Theorem Value_Multiply_comm (a b : units.Value) :
  units.Multiply a b = units.Multiply b a
  /\ (forall c,
         units.dim (units.Multiply (units.Multiply a b) c)
         = units.dim (units.Multiply a (units.Multiply b c))).
Proof.
  split; [apply Multiply_comm|].
  intros c. apply exponents_inj. rewrite !Multiply_exponents.
  unfold exponents, zip_with.
  cbn [units.dim units.L units.M units.T units.I units.Θ units.N units.J
         map combine fst snd].
  rewrite !wrap_add_l, !wrap_add_r, !Z.add_assoc. reflexivity.
Qed.

(** X3. Subtraction is the addition of the negated operand: on equal
    dimensions [Subtract(a, b)] and [Add(a, Negate(b))] return the same
    value, and one fails exactly when the other does. *)
Theorem Value_Subtract_as_Add (a b : units.Value) :
  is_err (units.Subtract a b) = is_err (units.Add a (units.Negate b))
  /\ (units.dim a = units.dim b ->
      units.Subtract a b = units.Add a (units.Negate b)).
Proof.
  split.
  - unfold units.Subtract, units.Add, units.Negate. cbn [units.dim].
    destruct (negb _); reflexivity.
  - intros E. rewrite (Subtract_same_dim a b E).
    rewrite (Add_same_dim a (units.Negate b) E).
    unfold units.Negate. cbn [units.value]. rewrite float_sub_add_opp. reflexivity.
Qed.

(** X4. [Negate] is an involution and [Abs] forgets the sign: negating
    twice gives the value back, the absolute value of a negated value is
    that of the value, and [Abs] is idempotent. *)
Theorem Value_Negate_Abs_laws (v : units.Value) :
  units.Negate (units.Negate v) = v
  /\ units.Abs (units.Negate v) = units.Abs v
  /\ units.Abs (units.Abs v) = units.Abs v.
Proof.
  destruct v as [x d]. unfold units.Negate, units.Abs. cbn [units.value units.dim].
  rewrite float_opp_involutive, float_abs_opp, float_abs_idem.
  repeat split.
Qed.

(** X5. Multiplying and then dividing by the same value restores the
    dimension, also when the intermediate exponents wrap around; and so
    does dividing and then multiplying. *)
Theorem Multiply_Divide_dim_roundtrip
  (a b : units.Value) (Ha : Dimension_in_range (units.dim a)) :
  units.dim (units.Divide (units.Multiply a b) b) = units.dim a
  /\ units.dim (units.Multiply (units.Divide a b) b) = units.dim a.
Proof.
  apply Forall_exponents in Ha. destruct Ha as (? & ? & ? & ? & ? & ? & ?).
  split; apply exponents_inj; unfold exponents, units.Divide, units.Multiply;
    cbn [units.dim units.L units.M units.T units.I units.Θ units.N units.J];
    unfold int8.add, int8.sub;
    rewrite ?wrap_sub_l, ?wrap_add_l;
    repeat (f_equal; try (rewrite <- wrap_id by eassumption; f_equal; lia)).
Qed.

Lemma Multiply_Divide_dim_roundtrip_witness :
  let a := units.mkValue 1 (units.mkDimension 100 0 0 0 0 0 0) in
  let b := units.mkValue 2 (units.mkDimension 100 0 0 0 0 0 0) in
  units.L (units.dim (units.Multiply a b)) = (-56)%Z
  /\ units.dim (units.Divide (units.Multiply a b) b) = units.dim a.
Proof.
  cbv zeta. split; [reflexivity|].
  apply Multiply_Divide_dim_roundtrip.
  repeat constructor; cbn; discriminate.
Defined.

(** X6. For values with [int8] exponents, the quotient is dimensionless
    exactly when the operands have the same dimension. *)
Theorem Divide_IsDimensionless_iff
  (a b : units.Value)
  (Ha : Dimension_in_range (units.dim a)) (Hb : Dimension_in_range (units.dim b)) :
  units.IsDimensionless (units.Divide a b) = true <-> units.dim a = units.dim b.
Proof.
  unfold units.IsDimensionless. rewrite Dimension_eqb_eq.
  apply Forall_exponents in Ha, Hb.
  destruct Ha as (H & H0 & H1 & H2 & H3 & H4 & H5).
  destruct Hb as (H6 & H7 & H8 & H9 & H10 & H11 & H12).
  split.
  - intros E. apply (f_equal exponents) in E.
    unfold exponents, units.Divide, units.Dimension_zero in E.
    cbn [units.dim units.L units.M units.T units.I units.Θ units.N units.J] in E.
    injection E as E1 E2 E3 E4 E5 E6 E7.
    apply exponents_inj. unfold exponents.
    rewrite (sub_zero_eq H H6 E1), (sub_zero_eq H0 H7 E2), (sub_zero_eq H1 H8 E3),
      (sub_zero_eq H2 H9 E4), (sub_zero_eq H3 H10 E5), (sub_zero_eq H4 H11 E6),
      (sub_zero_eq H5 H12 E7).
    reflexivity.
  - intros E. apply exponents_inj. unfold exponents, units.Divide.
    cbn [units.dim units.L units.M units.T units.I units.Θ units.N units.J].
    rewrite E. unfold int8.sub. rewrite !Z.sub_diag. reflexivity.
Qed.

Lemma Divide_IsDimensionless_iff_witness :
  units.IsDimensionless
    (units.Divide (units.mkValue 6 (units.mkDimension 1 0 (-1) 0 0 0 0))
                  (units.mkValue 3 (units.mkDimension 1 0 (-1) 0 0 0 0))) = true.
Proof.
  apply Divide_IsDimensionless_iff; try reflexivity;
    repeat constructor; cbn; discriminate.
Defined.

(** ** Laws of [Equal] *)

Lemma Dimension_eqb_sym (d e : units.Dimension) :
  units.Dimension_eqb d e = units.Dimension_eqb e d.
Proof.
  unfold units.Dimension_eqb.
  rewrite (Z.eqb_sym (units.L d)), (Z.eqb_sym (units.M d)), (Z.eqb_sym (units.T d)),
    (Z.eqb_sym (units.I d)), (Z.eqb_sym (units.Θ d)), (Z.eqb_sym (units.N d)),
    (Z.eqb_sym (units.J d)).
  reflexivity.
Qed.

Lemma almostEqual_sym (a b tolerance : float) :
  units.almostEqual a b tolerance = units.almostEqual b a tolerance.
Proof.
  unfold units.almostEqual.
  rewrite (float_eqb_sym b a), (float_abs_sub_comm b a),
    (float_add_comm (PrimFloat.abs b) (PrimFloat.abs a)),
    (orb_comm (b =? 0)%float (a =? 0)%float).
  reflexivity.
Qed.

(** A NaN compares equal to nothing and below nothing, and propagates
    through subtraction, absolute value and division. *)
Lemma almostEqual_nan (a b tolerance : float) :
  is_nan a = true -> units.almostEqual a b tolerance = false.
Proof.
  intros Ha. apply is_nan_spec in Ha. unfold units.almostEqual.
  assert (forall y, (a =? y)%float = false) as Heq
      by (intros y; rewrite eqb_spec, Ha; reflexivity).
  assert (Prim2SF (PrimFloat.abs (a - b)) = S754_nan) as Hd
      by (rewrite abs_spec, sub_spec, Ha; reflexivity).
  assert ((PrimFloat.abs (a - b) <? tolerance)%float = false) as Hlt
      by (rewrite ltb_spec, Hd; reflexivity).
  rewrite !Heq, Hlt. cbn [orb].
  destruct (b =? 0)%float; [reflexivity|].
  rewrite ltb_spec, div_spec, Hd. reflexivity.
Qed.

(** X7. [Value.Equal] is symmetric, and a value is equal to itself exactly
    when its magnitude is not NaN; a value with a NaN magnitude is equal to
    no value at all. *)
Theorem Value_Equal_sym_refl (a b : units.Value) :
  units.Equal a b = units.Equal b a
  /\ units.Equal a a = negb (is_nan (units.value a))
  /\ (is_nan (units.value a) = true -> units.Equal a b = false).
Proof.
  unfold units.Equal. split; [|split].
  - rewrite Dimension_eqb_sym, almostEqual_sym. reflexivity.
  - rewrite Dimension_eqb_refl. cbn [andb].
    destruct (is_nan (units.value a)) eqn:E.
    + apply almostEqual_nan, E.
    + unfold is_nan in E. apply negb_false_iff in E.
      unfold units.almostEqual. rewrite E. reflexivity.
  - intros E. rewrite almostEqual_nan by exact E. apply andb_false_r.
Qed.

Example Equal_nan_not_reflexive :
  units.Equal (units.mkValue nan units.Dimension_zero)
              (units.mkValue nan units.Dimension_zero) = false.
Proof. vm_compute. reflexivity. Qed.

(** ** Integer powers *)

Example float64_of_int_values :
  float64_of_int 2 = 2%float /\ float64_of_int (-3) = (-3)%float
  /\ float64_of_int 0 = 0%float
  /\ float64_of_int 9007199254740993 = 9007199254740992%float.
Proof. repeat split; vm_compute; reflexivity. Qed.

Section PowerLaws.
Variable math_Pow : float -> float -> float.
Local Open Scope Z_scope.

Lemma Power_exponents (v : units.Value) (n : Z) :
  exponents (units.dim (units.Power math_Pow v n))
  = map (fun e => int8.wrap (e * n)) (exponents (units.dim v)).
Proof.
  unfold exponents, units.Power, int8.mul, int8.of_int.
  cbn [units.dim units.L units.M units.T units.I units.Θ units.N units.J map].
  rewrite !wrap_mul_r. reflexivity.
Qed.

(** X8. The dimension of [Power(v, n)] follows the laws of exponents, in
    [int8] arithmetic: power 0 is dimensionless, power 1 keeps the
    dimension, power 2 has the dimension of [Multiply(v, v)], power -1 that
    of the inverse, powers add under [Multiply] and multiply under
    iteration.  The exponent [n] is truncated to [int8], so the dimension
    is periodic in [n] with period 256. *)
Theorem Power_dimension_laws
  (v : units.Value) (Hv : Dimension_in_range (units.dim v)) :
  units.dim (units.Power math_Pow v 0) = units.Dimension_zero
  /\ units.dim (units.Power math_Pow v 1) = units.dim v
  /\ units.dim (units.Power math_Pow v 2) = units.dim (units.Multiply v v)
  /\ units.dim (units.Power math_Pow v (-1))
     = units.dim (units.Divide (units.Dimensionless 1) v)
  /\ (forall n m,
         units.dim (units.Power math_Pow v (n + m))
         = units.dim (units.Multiply (units.Power math_Pow v n)
                        (units.Power math_Pow v m)))
  /\ (forall n m,
         units.dim (units.Power math_Pow (units.Power math_Pow v n) m)
         = units.dim (units.Power math_Pow v (n * m)))
  /\ (forall n,
         units.dim (units.Power math_Pow v (n + 256))
         = units.dim (units.Power math_Pow v n)).
Proof.
  apply Forall_exponents in Hv. destruct Hv as (? & ? & ? & ? & ? & ? & ?).
  assert (forall d e : units.Dimension,
             exponents d = exponents e -> d = e) as inj by apply exponents_inj.
  repeat apply conj; intros; apply inj;
    rewrite ?Power_exponents, ?Multiply_exponents, ?Divide_exponents,
      ?Power_exponents;
    unfold exponents, zip_with, units.Dimensionless, units.Dimension_zero;
    cbn [units.dim units.L units.M units.T units.I units.Θ units.N units.J
           map combine fst snd];
    repeat (apply (f_equal2 cons); [|]); try reflexivity;
    rewrite ?wrap_add_l, ?wrap_add_r, ?wrap_mul_l, ?wrap_mul_r;
    first
      [ f_equal; lia
      | rewrite Z.mul_0_r; reflexivity
      | rewrite Z.mul_1_r; apply wrap_id; assumption
      | match goal with
        | |- int8.wrap (?e * (?n + 256)) = _ =>
            replace (e * (n + 256)) with (e * n + 256 * e) by lia;
            apply wrap_shift
        end ].
Qed.
End PowerLaws.

Section PowerSqrt.
Variable math_Pow : float -> float -> float.

(** X9. The square root of a square is always defined: [Sqrt(Power(v, 2))]
    never fails, and when every exponent of [v] lies in [-64, 63] it has
    the dimension of [v]. *)
Theorem Sqrt_Power_2 (v : units.Value) :
  is_err (units.Sqrt (units.Power math_Pow v 2)) = false
  /\ (Forall half_range (exponents (units.dim v)) ->
      exists w, units.Sqrt (units.Power math_Pow v 2) = Ok w
                /\ units.dim w = units.dim v).
Proof.
  assert (is_err (units.Sqrt (units.Power math_Pow v 2)) = false) as HOk.
  { rewrite Sqrt_is_err, Power_exponents.
    destruct (existsb _ _) eqn:E; [|reflexivity].
    apply existsb_exists in E. destruct E as (e & He & Ho).
    apply in_map_iff in He. destruct He as (e' & <- & _).
    rewrite <- Z.negb_even, wrap_even, Z.even_mul in Ho.
    rewrite orb_true_r in Ho. discriminate. }
  split; [exact HOk|].
  intros Hh. eexists. split; [apply Sqrt_Ok, HOk|].
  apply Forall_exponents in Hh. destruct Hh as (? & ? & ? & ? & ? & ? & ?).
  apply exponents_inj. unfold exponents, units.Power, int8.mul, int8.of_int.
  cbn [units.dim units.L units.M units.T units.I units.Θ units.N units.J].
  assert (forall e, half_range e ->
                    int8.quo (int8.wrap (e * int8.wrap 2)) 2 = e) as Hq.
  { intros e He. unfold int8.quo, half_range in *.
    rewrite wrap_mul_r, (wrap_id (z := e * 2)) by (unfold int8.in_range; lia).
    rewrite Z.quot_mul by lia. apply wrap_id. unfold int8.in_range. lia. }
  rewrite !Hq by assumption. reflexivity.
Qed.
End PowerSqrt.

(** With any function in the place of [math.Pow]: the cube of a length is a
    volume, and the 256th power of anything is dimensionless. *)
Lemma Power_dimension_laws_witness :
  let pow := fun _ _ : float => nan in
  let v := units.mkValue 5 (units.mkDimension 1 0 0 0 0 0 0) in
  units.dim (units.Power pow v 1) = units.dim v
  /\ units.dim (units.Power pow v 3) = units.mkDimension 3 0 0 0 0 0 0
  /\ units.dim (units.Power pow v 256) = units.Dimension_zero.
Proof.
  cbv zeta. split; [|split; reflexivity].
  refine (proj1 (proj2 (@Power_dimension_laws (fun _ _ => nan) _ _))).
  repeat constructor; cbn; discriminate.
Defined.

(** ** Construction and componentwise operations of vectors *)

(** X10. [New] fails exactly when the three components do not share one
    dimension; otherwise it returns the vector of exactly these
    components. *)
Theorem Vector3_New_spec (x y z : units.Value) :
  (is_err (vector.New x y z) = true
   <-> ~ (units.dim x = units.dim y /\ units.dim x = units.dim z))
  /\ (units.dim x = units.dim y -> units.dim x = units.dim z ->
      vector.New x y z = Ok (vector.mkVector3 x y z)).
Proof.
  split; [|apply Vector3_New_Ok].
  unfold vector.New, units.Dim.
  destruct (units.Dimension_eqb (units.dim x) (units.dim y)) eqn:Ey;
    [apply Dimension_eqb_eq in Ey|apply Dimension_eqb_neq in Ey];
    (destruct (units.Dimension_eqb (units.dim x) (units.dim z)) eqn:Ez;
     [apply Dimension_eqb_eq in Ez|apply Dimension_eqb_neq in Ez]);
    cbn [negb orb is_err]; split; intros H;
    first [ discriminate H
          | reflexivity
          | exfalso; apply H; split; assumption
          | intros [? ?]; contradiction ].
Qed.

Lemma Vector3_Add_Ok (u v : vector.Vector3) :
  SameDimension u -> SameDimension v -> vector.Dim u = vector.Dim v ->
  vector.Add u v
  = Ok (vector.mkVector3
          (units.mkValue (units.value (vector.X u) + units.value (vector.X v))
             (vector.Dim u))
          (units.mkValue (units.value (vector.Y u) + units.value (vector.Y v))
             (vector.Dim u))
          (units.mkValue (units.value (vector.Z u) + units.value (vector.Z v))
             (vector.Dim u))).
Proof.
  intros Hu Hv.
  destruct (SameDimension_inv Hu) as (x & y & z & d & ->).
  destruct (SameDimension_inv Hv) as (x' & y' & z' & d' & ->).
  unfold vector.Dim, units.Dim, vector.Add. cbn [vector.X vector.Y vector.Z units.dim].
  intros <-. rewrite !Add_same_dim by reflexivity. reflexivity.
Qed.

Lemma Vector3_Subtract_Ok (u v : vector.Vector3) :
  SameDimension u -> SameDimension v -> vector.Dim u = vector.Dim v ->
  vector.Subtract u v
  = Ok (vector.mkVector3
          (units.mkValue (units.value (vector.X u) - units.value (vector.X v))
             (vector.Dim u))
          (units.mkValue (units.value (vector.Y u) - units.value (vector.Y v))
             (vector.Dim u))
          (units.mkValue (units.value (vector.Z u) - units.value (vector.Z v))
             (vector.Dim u))).
Proof.
  intros Hu Hv.
  destruct (SameDimension_inv Hu) as (x & y & z & d & ->).
  destruct (SameDimension_inv Hv) as (x' & y' & z' & d' & ->).
  unfold vector.Dim, units.Dim, vector.Subtract.
  cbn [vector.X vector.Y vector.Z units.dim].
  intros <-. rewrite !Subtract_same_dim by reflexivity. reflexivity.
Qed.

Lemma Vector3_Add_Err (u v : vector.Vector3) :
  vector.Dim u <> vector.Dim v ->
  is_err (vector.Add u v) = true /\ is_err (vector.Subtract u v) = true.
Proof.
  unfold vector.Dim, units.Dim, vector.Add, vector.Subtract, units.Add, units.Subtract.
  intros H. apply Dimension_eqb_neq in H. rewrite H. split; reflexivity.
Qed.

(** X11. For vectors whose components share one dimension each, [Add] and
    [Subtract] fail exactly when the two vectors differ in dimension;
    otherwise they return the componentwise sum, respectively difference,
    in the dimension of the operands. *)
Theorem Vector3_Add_Subtract_spec
  (u v : vector.Vector3) (Hu : SameDimension u) (Hv : SameDimension v) :
  (is_err (vector.Add u v) = true <-> vector.Dim u <> vector.Dim v)
  /\ (is_err (vector.Subtract u v) = true <-> vector.Dim u <> vector.Dim v)
  /\ (vector.Dim u = vector.Dim v ->
      vector.Add u v
      = Ok (vector.mkVector3
              (units.mkValue (units.value (vector.X u) + units.value (vector.X v))
                 (vector.Dim u))
              (units.mkValue (units.value (vector.Y u) + units.value (vector.Y v))
                 (vector.Dim u))
              (units.mkValue (units.value (vector.Z u) + units.value (vector.Z v))
                 (vector.Dim u)))
      /\ vector.Subtract u v
         = Ok (vector.mkVector3
                 (units.mkValue (units.value (vector.X u) - units.value (vector.X v))
                    (vector.Dim u))
                 (units.mkValue (units.value (vector.Y u) - units.value (vector.Y v))
                    (vector.Dim u))
                 (units.mkValue (units.value (vector.Z u) - units.value (vector.Z v))
                    (vector.Dim u)))).
Proof.
  assert (forall r : result vector.Vector3,
             (vector.Dim u = vector.Dim v -> is_err r = false) ->
             (vector.Dim u <> vector.Dim v -> is_err r = true) ->
             (is_err r = true <-> vector.Dim u <> vector.Dim v)) as Hiff.
  { intros r H1 H2. split; [|exact H2].
    intros E D. rewrite (H1 D) in E. discriminate. }
  split; [|split].
  - apply Hiff.
    + intros D. rewrite (Vector3_Add_Ok Hu Hv D). reflexivity.
    + intros D. apply (proj1 (Vector3_Add_Err u v D)).
  - apply Hiff.
    + intros D. rewrite (Vector3_Subtract_Ok Hu Hv D). reflexivity.
    + intros D. apply (proj2 (Vector3_Add_Err u v D)).
  - intros D. split; [apply Vector3_Add_Ok|apply Vector3_Subtract_Ok]; assumption.
Qed.

Lemma Vector3_Add_Subtract_spec_witness :
  let d := units.mkDimension 1 0 0 0 0 0 0 in
  let u := vector.mkVector3 (units.mkValue 1 d) (units.mkValue 2 d) (units.mkValue 3 d) in
  let v := vector.mkVector3 (units.mkValue 4 d) (units.mkValue 5 d) (units.mkValue 6 d) in
  vector.Add u v
  = Ok (vector.mkVector3 (units.mkValue 5 d) (units.mkValue 7 d) (units.mkValue 9 d))
  /\ is_err (vector.Add u (vector.Zero (units.mkDimension 0 1 0 0 0 0 0))) = true.
Proof.
  cbv zeta. split.
  - rewrite (proj1 (proj2 (proj2
               (@Vector3_Add_Subtract_spec
                  (vector.mkVector3 (units.mkValue 1 (units.mkDimension 1 0 0 0 0 0 0))
                     (units.mkValue 2 (units.mkDimension 1 0 0 0 0 0 0))
                     (units.mkValue 3 (units.mkDimension 1 0 0 0 0 0 0)))
                  (vector.mkVector3 (units.mkValue 4 (units.mkDimension 1 0 0 0 0 0 0))
                     (units.mkValue 5 (units.mkDimension 1 0 0 0 0 0 0))
                     (units.mkValue 6 (units.mkDimension 1 0 0 0 0 0 0)))
                  (conj eq_refl eq_refl) (conj eq_refl eq_refl))) eq_refl)).
    reflexivity.
  - reflexivity.
Defined.

(** ** Dot product *)

Lemma Dot_comm (u v : vector.Vector3) : vector.Dot u v = vector.Dot v u.
Proof.
  unfold vector.Dot.
  rewrite (Multiply_comm (vector.X u)), (Multiply_comm (vector.Y u)),
    (Multiply_comm (vector.Z u)).
  reflexivity.
Qed.

(** X12. [Dot] is commutative for all vectors, bit for bit; hence so is the
    perpendicularity test. *)
Theorem Vector3_Dot_comm (u v : vector.Vector3) :
  vector.Dot u v = vector.Dot v u
  /\ (forall tolerance,
         vector.IsPerpendicular u v tolerance = vector.IsPerpendicular v u tolerance).
Proof.
  split; [apply Dot_comm|].
  intros t. unfold vector.IsPerpendicular. rewrite Dot_comm. reflexivity.
Qed.

Lemma drop_err_Add_mismatch (a b : units.Value) :
  units.dim a <> units.dim b -> units.drop_err (units.Add a b) = units.Value_zero.
Proof.
  intros H. apply Dimension_eqb_neq in H. unfold units.Add. rewrite H. reflexivity.
Qed.

(** X13. [Dot] reports no error: when the three products of components do
    not share one dimension, the dropped failure of the inner [Add] leaves
    a dimensionless result. *)
Theorem Vector3_Dot_mismatch (u v : vector.Vector3) :
  let xx := units.Multiply (vector.X u) (vector.X v) in
  let yy := units.Multiply (vector.Y u) (vector.Y v) in
  let zz := units.Multiply (vector.Z u) (vector.Z v) in
  ~ (units.dim xx = units.dim yy /\ units.dim xx = units.dim zz) ->
  units.dim (vector.Dot u v) = units.Dimension_zero
  /\ (units.dim zz <> units.Dimension_zero -> vector.Dot u v = units.Value_zero).
Proof.
  cbv zeta. unfold vector.Dot.
  set (xx := units.Multiply (vector.X u) (vector.X v)).
  set (yy := units.Multiply (vector.Y u) (vector.Y v)).
  set (zz := units.Multiply (vector.Z u) (vector.Z v)).
  clearbody xx yy zz. intros H.
  destruct (units.Dimension_eqb (units.dim xx) (units.dim yy)) eqn:Exy.
  - apply Dimension_eqb_eq in Exy.
    rewrite (Add_same_dim xx yy Exy). cbn [units.drop_err].
    rewrite drop_err_Add_mismatch; [split; reflexivity|].
    cbn [units.dim]. intros Exz. apply H. split; assumption.
  - apply Dimension_eqb_neq in Exy.
    rewrite (drop_err_Add_mismatch xx yy Exy).
    destruct (units.Dimension_eqb (units.dim units.Value_zero) (units.dim zz)) eqn:Ez.
    + apply Dimension_eqb_eq in Ez.
      rewrite (Add_same_dim units.Value_zero zz Ez). cbn [units.drop_err units.dim].
      split; [reflexivity|].
      intros Hz. exfalso. apply Hz. symmetry. exact Ez.
    + apply Dimension_eqb_neq in Ez.
      rewrite (drop_err_Add_mismatch units.Value_zero zz Ez). split; reflexivity.
Qed.

Lemma Vector3_Dot_mismatch_witness :
  let u := vector.mkVector3 (units.mkValue 1 (units.mkDimension 1 0 0 0 0 0 0))
             (units.mkValue 2 (units.mkDimension 0 1 0 0 0 0 0))
             (units.mkValue 3 (units.mkDimension 0 0 1 0 0 0 0)) in
  vector.Dot u u = units.Value_zero.
Proof.
  cbv zeta. apply Vector3_Dot_mismatch.
  - intros [E _]. discriminate E.
  - discriminate.
Defined.

(** ** Magnitude and projection *)

(** X14. For a vector whose components share one dimension with every
    exponent in [-64, 63], [Magnitude] returns the square root of
    [MagnitudeSquared] in the dimension of the vector. *)
Theorem Vector3_Magnitude_dim
  (v : vector.Vector3) (Hv : SameDimension v)
  (Hh : Forall half_range (exponents (vector.Dim v))) :
  vector.Magnitude v
  = Ok (units.mkValue (PrimFloat.sqrt (units.Val (vector.MagnitudeSquared v)))
          (vector.Dim v)).
Proof.
  unfold vector.Magnitude.
  rewrite Sqrt_Ok by exact (Magnitude_Ok Hv).
  unfold vector.MagnitudeSquared, units.Val. do 2 f_equal.
  rewrite (Dot_same_dim Hv Hv). cbn [units.dim].
  apply Forall_exponents in Hh. destruct Hh as (? & ? & ? & ? & ? & ? & ?).
  assert (forall e, half_range e -> int8.quo (int8.add e e) 2 = e) as Hq.
  { intros e He. unfold int8.quo, int8.add, half_range in *.
    rewrite (wrap_id (z := e + e)) by (unfold int8.in_range; lia).
    replace (e + e)%Z with (e * 2)%Z by lia. rewrite Z.quot_mul by lia.
    apply wrap_id. unfold int8.in_range. lia. }
  apply exponents_inj. unfold exponents, units.Multiply, vector.Dim, units.Dim in *.
  cbn [units.dim units.L units.M units.T units.I units.Θ units.N units.J] in *.
  rewrite !Hq by assumption. reflexivity.
Qed.

Lemma Vector3_Magnitude_dim_witness :
  let d := units.mkDimension 1 0 (-1) 0 0 0 0 in
  vector.Magnitude
    (vector.mkVector3 (units.mkValue 3 d) (units.mkValue 4 d) (units.mkValue 0 d))
  = Ok (units.mkValue 5 d).
Proof.
  cbv zeta. rewrite Vector3_Magnitude_dim.
  - reflexivity.
  - split; reflexivity.
  - repeat constructor; cbn; discriminate.
Defined.

(** The exponent of a projected component: the exponent of [other], plus
    that of [Dot(v, other)], minus that of [Dot(other, other)], each step
    wrapped to 8 bits, is the exponent of [v]. *)
Lemma project_exponent (e o : Z) :
  int8.in_range e ->
  int8.add o (int8.sub (int8.add e o) (int8.add o o)) = e.
Proof.
  intros He. unfold int8.add, int8.sub.
  rewrite wrap_sub_l, wrap_sub_r, wrap_add_r.
  replace (o + (e + o - (o + o)))%Z with e by lia.
  apply wrap_id, He.
Qed.

(** X15. [ProjectOnto] fails exactly when the raw scalar of
    [MagnitudeSquared(other)] is exactly zero; otherwise it returns the
    components of [other] multiplied by [Dot(v, other) /
    MagnitudeSquared(other)], and for vectors that share one dimension
    each, every component of the result has the dimension of [v], also
    when intermediate exponents wrap around. *)
Theorem Vector3_ProjectOnto_spec (v other : vector.Vector3) :
  let scalar := units.Divide (vector.Dot v other) (vector.MagnitudeSquared other) in
  (is_err (vector.ProjectOnto v other) = true
   <-> (units.Val (vector.MagnitudeSquared other) =? 0)%float = true)
  /\ ((units.Val (vector.MagnitudeSquared other) =? 0)%float = false ->
      vector.ProjectOnto v other
      = Ok (vector.mkVector3 (units.Multiply (vector.X other) scalar)
              (units.Multiply (vector.Y other) scalar)
              (units.Multiply (vector.Z other) scalar)))
  /\ (SameDimension v -> SameDimension other ->
      Dimension_in_range (vector.Dim v) ->
      forall w, vector.ProjectOnto v other = Ok w ->
                Forall (fun c => units.dim c = vector.Dim v) (components w)).
Proof.
  cbv zeta. unfold vector.ProjectOnto.
  split; [|split].
  - destruct (_ =? 0)%float; cbn [is_err]; split; congruence.
  - intros ->. reflexivity.
  - intros Hv Ho Hr w.
    destruct (_ =? 0)%float; [discriminate|].
    intros E. apply Ok_inj in E. subst w.
    unfold vector.MagnitudeSquared.
    rewrite (Dot_same_dim Hv Ho), (Dot_same_dim Ho Ho).
    destruct (SameDimension_inv Hv) as (x & y & z & d & ->).
    destruct (SameDimension_inv Ho) as (x' & y' & z' & d' & ->).
    unfold vector.Dim, units.Dim in *. cbn [vector.X units.dim] in *.
    apply Forall_exponents in Hr. destruct Hr as (? & ? & ? & ? & ? & ? & ?).
    unfold components, units.Divide, units.Multiply.
    cbn [vector.X vector.Y vector.Z units.dim units.value
           units.L units.M units.T units.I units.Θ units.N units.J].
    rewrite !project_exponent by assumption.
    destruct d. repeat constructor.
Qed.

Lemma Vector3_ProjectOnto_spec_witness :
  let d := units.mkDimension 1 0 0 0 0 0 0 in
  let v := vector.mkVector3 (units.mkValue 3 d) (units.mkValue 4 d) (units.mkValue 0 d) in
  let x := vector.mkVector3 (units.mkValue 2 d) (units.mkValue 0 d) (units.mkValue 0 d) in
  vector.ProjectOnto v x
  = Ok (vector.mkVector3 (units.mkValue 3 d) (units.mkValue 0 d) (units.mkValue 0 d))
  /\ is_err (vector.ProjectOnto v (vector.Zero d)) = true.
Proof.
  cbv zeta. split.
  - rewrite (proj1 (proj2 (Vector3_ProjectOnto_spec _ _))) by (vm_compute; reflexivity).
    vm_compute. reflexivity.
  - apply (proj1 (Vector3_ProjectOnto_spec _ _)). vm_compute. reflexivity.
Defined.

(** ** Zeros and squares *)

Lemma Prim2SF_zero : Prim2SF 0 = S754_zero false.
Proof. reflexivity. Qed.

(** The square of a zero of either sign is the positive zero. *)
Lemma float_square_zero (x : float) : (x =? 0)%float = true -> (x * x = 0)%float.
Proof.
  intros H. apply float_eqb_zero in H. destruct H as [s H].
  apply Prim2SF_inj. rewrite mul_spec, H, Prim2SF_zero.
  destruct s; reflexivity.
Qed.

Lemma float_opp_eqb_zero (x : float) : (- x =? 0)%float = (x =? 0)%float.
Proof.
  rewrite !eqb_spec, opp_spec.
  destruct (Prim2SF x) as [[]|[]| |[] m e]; reflexivity.
Qed.

(** Two floats that are opposite, or both zero, have the same square. *)
Lemma float_square_opp (x y : float) :
  x = (- y)%float \/ ((x =? 0)%float = true /\ (- y =? 0)%float = true) ->
  (x * x = y * y)%float.
Proof.
  intros [->|[Hx Hy]].
  - apply float_mul_opp_opp.
  - rewrite float_opp_eqb_zero in Hy.
    rewrite (float_square_zero Hx), (float_square_zero Hy). reflexivity.
Qed.

(** X16. The parallelism test is symmetric for vectors that share one
    dimension each: [MagnitudeSquared] of [Cross(u, v)] and of
    [Cross(v, u)] have the same magnitude, bit for bit. *)
Theorem Vector3_IsParallel_sym
  (u v : vector.Vector3) (Hu : SameDimension u) (Hv : SameDimension v) :
  units.Val (vector.MagnitudeSquared (vector.Cross u v))
  = units.Val (vector.MagnitudeSquared (vector.Cross v u))
  /\ (forall tolerance,
         vector.IsParallel u v tolerance = vector.IsParallel v u tolerance).
Proof.
  assert (units.Val (vector.MagnitudeSquared (vector.Cross u v))
          = units.Val (vector.MagnitudeSquared (vector.Cross v u))) as E.
  { unfold vector.MagnitudeSquared, units.Val.
    rewrite (Dot_same_dim (Vector3_Cross_same Hu Hv) (Vector3_Cross_same Hu Hv)).
    rewrite (Dot_same_dim (Vector3_Cross_same Hv Hu) (Vector3_Cross_same Hv Hu)).
    cbn [units.value].
    rewrite (Cross_same_dim Hu Hv), (Cross_same_dim Hv Hu).
    cbn [vector.X vector.Y vector.Z units.value].
    assert (forall a b c d : float,
               ((a * b - c * d) * (a * b - c * d)
                = (d * c - b * a) * (d * c - b * a))%float) as Hsq.
    { intros a b c d. apply float_square_opp.
      destruct (cross_component_antisym a b c d) as [H _]. exact H. }
    rewrite (Hsq (units.value (vector.Y u))), (Hsq (units.value (vector.Z u))),
      (Hsq (units.value (vector.X u))).
    reflexivity. }
  split; [exact E|].
  intros t. unfold vector.IsParallel. rewrite E. reflexivity.
Qed.

Lemma Vector3_IsParallel_sym_witness :
  let d := units.mkDimension 1 0 0 0 0 0 0 in
  let u := vector.mkVector3 (units.mkValue 1 d) (units.mkValue 2 d) (units.mkValue 3 d) in
  let v := vector.mkVector3 (units.mkValue 2 d) (units.mkValue 4 d) (units.mkValue 6 d) in
  vector.IsParallel u v 0x1p-30 = true /\ vector.IsParallel v u 0x1p-30 = true.
Proof.
  cbv zeta. split.
  - vm_compute. reflexivity.
  - rewrite <- (proj2 (@Vector3_IsParallel_sym
                         (vector.mkVector3 (units.mkValue 1 (units.mkDimension 1 0 0 0 0 0 0))
                            (units.mkValue 2 (units.mkDimension 1 0 0 0 0 0 0))
                            (units.mkValue 3 (units.mkDimension 1 0 0 0 0 0 0)))
                         (vector.mkVector3 (units.mkValue 2 (units.mkDimension 1 0 0 0 0 0 0))
                            (units.mkValue 4 (units.mkDimension 1 0 0 0 0 0 0))
                            (units.mkValue 6 (units.mkDimension 1 0 0 0 0 0 0)))
                         (conj eq_refl eq_refl) (conj eq_refl eq_refl))).
    vm_compute. reflexivity.
Defined.

(** The squared magnitude of a vector whose components are all zero is the
    positive zero. *)
Lemma MagnitudeSquared_IsZero (v : vector.Vector3) :
  SameDimension v -> vector.IsZero v = true ->
  units.Val (vector.MagnitudeSquared v) = 0%float.
Proof.
  intros Hv Hz. unfold vector.MagnitudeSquared, units.Val.
  rewrite (Dot_same_dim Hv Hv). cbn [units.value].
  unfold vector.IsZero, units.Val in Hz.
  apply andb_true_iff in Hz. destruct Hz as [Hz Hz3].
  apply andb_true_iff in Hz. destruct Hz as [Hz1 Hz2].
  rewrite (float_square_zero Hz1), (float_square_zero Hz2),
    (float_square_zero Hz3).
  reflexivity.
Qed.

(** X17. A vector whose three magnitudes are exactly zero (of either sign)
    and share one dimension can be neither normalized nor projected onto:
    [Normalize(v)] and [ProjectOnto(u, v)] fail, for every [u]. *)
Theorem Vector3_IsZero_errors
  (v : vector.Vector3) (Hv : SameDimension v) (Hz : vector.IsZero v = true) :
  is_err (vector.Normalize v) = true
  /\ (forall u, is_err (vector.ProjectOnto u v) = true).
Proof.
  pose proof (MagnitudeSquared_IsZero Hv Hz) as E. split.
  - pose proof (Sqrt_Ok _ (Magnitude_Ok Hv)) as EM.
    fold (vector.MagnitudeSquared v) in EM. fold (vector.Magnitude v) in EM.
    rewrite (Normalize_unfold _ EM). unfold units.Val in *. cbn [units.value].
    rewrite E. reflexivity.
  - intros u. unfold vector.ProjectOnto. rewrite E. reflexivity.
Qed.

Lemma Vector3_IsZero_errors_witness :
  let d := units.mkDimension 1 0 0 0 0 0 0 in
  let z := vector.mkVector3 (units.mkValue 0 d) (units.mkValue (-0) d) (units.mkValue 0 d) in
  is_err (vector.Normalize z) = true.
Proof.
  cbv zeta. refine (proj1 (@Vector3_IsZero_errors _ _ _)).
  - split; reflexivity.
  - vm_compute. reflexivity.
Defined.

(** ** Angle between vectors *)

(** The two clamping tests of [AngleBetween] leave a cosine in [-1, 1], or
    a NaN. *)
Lemma clamp_cosine (c : float) :
  let c1 := if (1.0 <? c)%float then 1.0%float else c in
  let c2 := if (c1 <? -1.0)%float then (-1.0)%float else c1 in
  is_nan c2 = true \/ ((-1.0 <=? c2)%float && (c2 <=? 1.0)%float) = true.
Proof.
  cbv zeta. destruct (1.0 <? c)%float eqn:E1.
  - right. vm_compute. reflexivity.
  - destruct (c <? -1.0)%float eqn:E2.
    + right. vm_compute. reflexivity.
    + destruct (is_nan c) eqn:En; [left; reflexivity|right].
      assert (Prim2SF c <> S754_nan) as Hc.
      { intros H. apply is_nan_spec in H. congruence. }
      rewrite ltb_spec in E1, E2. rewrite !leb_spec.
      apply andb_true_intro. split.
      * apply SFleb_of_not_ltb; [|exact Hc|exact E2].
        vm_compute. discriminate.
      * apply SFleb_of_not_ltb; [exact Hc| |exact E1].
        vm_compute. discriminate.
Qed.

Section AngleBetweenFacts.
Variable math_Acos : float -> float.

(** X18. For vectors whose components share one dimension each,
    [AngleBetween] fails exactly when the product of the two magnitudes is
    exactly zero as a float; otherwise it returns [math.Acos] of a cosine
    that the clamping has brought into [-1, 1], unless the cosine is NaN. *)
Theorem Vector3_AngleBetween_spec
  (u v : vector.Vector3) (Hu : SameDimension u) (Hv : SameDimension v) :
  exists magU magV,
    vector.Magnitude u = Ok magU /\ vector.Magnitude v = Ok magV
    /\ (is_err (vector.AngleBetween math_Acos u v) = true
        <-> (units.Val (units.Multiply magU magV) =? 0)%float = true)
    /\ ((units.Val (units.Multiply magU magV) =? 0)%float = false ->
        exists c,
          vector.AngleBetween math_Acos u v = Ok (math_Acos c)
          /\ (is_nan c = true
              \/ ((-1.0 <=? c)%float && (c <=? 1.0)%float) = true)).
Proof.
  pose proof (Sqrt_Ok _ (Magnitude_Ok Hu)) as EU.
  pose proof (Sqrt_Ok _ (Magnitude_Ok Hv)) as EV.
  fold (vector.MagnitudeSquared u) in EU. fold (vector.Magnitude u) in EU.
  fold (vector.MagnitudeSquared v) in EV. fold (vector.Magnitude v) in EV.
  eexists. eexists. split; [exact EU|]. split; [exact EV|].
  unfold vector.AngleBetween. rewrite EU, EV.
  match goal with
  | |- context [(units.Val ?p =? 0)%float] => generalize p; intros magProduct
  end.
  split.
  - destruct (units.Val magProduct =? 0)%float; cbn [is_err]; split; congruence.
  - intros ->. eexists. split; [reflexivity|]. apply clamp_cosine.
Qed.
End AngleBetweenFacts.

(** With any function in the place of [math.Acos] (here the identity, which
    shows the clamped cosine): perpendicular unit vectors have cosine 0,
    and the angle with a zero vector is refused. *)
Lemma Vector3_AngleBetween_spec_witness :
  let d := units.mkDimension 1 0 0 0 0 0 0 in
  let i := vector.mkVector3 (units.mkValue 1 d) (units.mkValue 0 d) (units.mkValue 0 d) in
  let j := vector.mkVector3 (units.mkValue 0 d) (units.mkValue 1 d) (units.mkValue 0 d) in
  vector.AngleBetween (fun c => c) i j = Ok 0%float
  /\ is_err (vector.AngleBetween (fun c => c) i (vector.Zero d)) = true.
Proof.
  cbv zeta. split; [vm_compute; reflexivity|].
  destruct (@Vector3_AngleBetween_spec (fun c => c)
              (vector.mkVector3 (units.mkValue 1 (units.mkDimension 1 0 0 0 0 0 0))
                 (units.mkValue 0 (units.mkDimension 1 0 0 0 0 0 0))
                 (units.mkValue 0 (units.mkDimension 1 0 0 0 0 0 0)))
              (vector.Zero (units.mkDimension 1 0 0 0 0 0 0))
              (conj eq_refl eq_refl) (conj eq_refl eq_refl))
    as (magU & magV & EU & EV & H & _).
  apply H.
  assert (magU = units.mkValue 1 (units.mkDimension 1 0 0 0 0 0 0)) as ->
      by (apply Ok_inj; rewrite <- EU; vm_compute; reflexivity).
  assert (magV = units.mkValue 0 (units.mkDimension 1 0 0 0 0 0 0)) as ->
      by (apply Ok_inj; rewrite <- EV; vm_compute; reflexivity).
  vm_compute. reflexivity.
Defined.

(** ** Named units *)

(** X19. The typed operations of the derived units agree with the
    constructors of their result types: on quantities built by the
    constructors of the SI units, each operation returns exactly the
    quantity that the constructor of the result unit builds from the
    product, respectively the quotient, of the magnitudes. *)
Theorem typed_operations_sound (x y : float) :
  units.Area_Multiply (units.SquareMeter x) (units.Meter y)
  = units.CubicMeter (x * y)
  /\ units.Velocity_Divide (units.MeterPerSecond x) (units.Second y)
     = units.MeterPerSecond2 (x / y)
  /\ units.Length_Divide (units.Meter x) (units.Second y)
     = units.MeterPerSecond (x / y)
  /\ units.Mass_MultiplyAcceleration (units.Kilogram x) (units.MeterPerSecond2 y)
     = units.Newton (x * y)
  /\ units.Force_Multiply (units.Newton x) (units.Meter y) = units.Joule (x * y)
  /\ units.Energy_Divide (units.Joule x) (units.Second y) = units.Watt (x / y)
  /\ units.Power_Multiply (units.Watt x) (units.Second y) = units.Joule (x * y)
  /\ units.Force_Divide (units.Newton x) (units.SquareMeter y) = units.Pascal (x / y)
  /\ units.Voltage_Divide (units.Volt x) (units.Ampere y) = units.Ohm (x / y)
  /\ units.Current_Multiply (units.Ampere x) (units.Second y) = units.Coulomb (x * y)
  /\ units.Charge_Divide (units.Coulomb x) (units.Second y) = units.Ampere (x / y).
Proof. repeat split. Qed.

(** X20. Vectors built from quantities of one named unit share one
    dimension, and their products have the dimension the documentation
    promises: the dot product of a force and a position is an energy, and
    every component of their cross product (a torque) has the dimension of
    an energy as well. *)
Theorem named_vectors_sound (x y z fx fy fz : float) :
  let r := vector.NewPosition (units.Meter x) (units.Meter y) (units.Meter z) in
  let f := vector.NewForce (units.Newton fx) (units.Newton fy) (units.Newton fz) in
  let energy := units.dim (units.Energy_Value (units.Joule 0)) in
  SameDimension r /\ SameDimension f
  /\ SameDimension
       (vector.NewVelocity (units.MeterPerSecond x) (units.MeterPerSecond y)
          (units.MeterPerSecond z))
  /\ SameDimension
       (vector.NewAcceleration (units.MeterPerSecond2 x) (units.MeterPerSecond2 y)
          (units.MeterPerSecond2 z))
  /\ vector.Dot f r
     = units.mkValue (fx * x + fy * y + fz * z)%float energy
  /\ Forall (fun c => units.dim c = energy) (components (vector.Cross r f)).
Proof.
  cbv zeta. repeat split. repeat constructor.
Qed.

(** X21. [UnitX] and [UnitY] are orthogonal and right-handed in every
    dimension: their dot product has magnitude 0, and their cross product
    has the magnitudes (0, 0, 1), the vector that [UnitZ] is documented to
    return, in the squared dimension. *)
Theorem UnitX_UnitY_basis (d : units.Dimension) :
  units.Val (vector.Dot (vector.UnitX d) (vector.UnitY d)) = 0%float
  /\ vector.ToArray (vector.Cross (vector.UnitX d) (vector.UnitY d))
     = (0%float, 0%float, 1%float)
  /\ Forall (fun c => units.dim c
                      = units.dim (units.Multiply (units.NewValue 1 d)
                                     (units.NewValue 1 d)))
       (components (vector.Cross (vector.UnitX d) (vector.UnitY d)))
  /\ (forall tolerance,
         vector.IsPerpendicular (vector.UnitX d) (vector.UnitY d) tolerance
         = (0 <? tolerance)%float).
Proof.
  assert (SameDimension (vector.UnitX d)) as Hx by (split; reflexivity).
  assert (SameDimension (vector.UnitY d)) as Hy by (split; reflexivity).
  assert (units.Val (vector.Dot (vector.UnitX d) (vector.UnitY d)) = 0%float) as E.
  { rewrite (Dot_same_dim Hx Hy). reflexivity. }
  split; [exact E|]. split; [|split].
  - rewrite (Cross_same_dim Hx Hy). reflexivity.
  - rewrite (Cross_same_dim Hx Hy). repeat constructor.
  - intros t. unfold vector.IsPerpendicular. rewrite E. reflexivity.
Qed.

(** ** The rendering of dimensions is unambiguous *)

Section Unambiguous.
Local Open Scope string_scope.

Lemma append_inj_l (s a b : string) : s ++ a = s ++ b -> a = b.
Proof.
  induction s as [|c s IH]; cbn; intros H.
  - exact H.
  - injection H as H. apply IH, H.
Qed.

(** A separator-free prefix is determined by the string, when a separator
    follows it. *)
Lemma sep_free_prefix (n1 : string) :
  forall n2 r1 r2 : string,
    sep_free n1 = true -> sep_free n2 = true ->
    is_sep (first_char r1) = true -> is_sep (first_char r2) = true ->
    n1 ++ r1 = n2 ++ r2 -> n1 = n2 /\ r1 = r2.
Proof.
  induction n1 as [|c n1 IH]; intros [|c' n2] r1 r2 H1 H2 S1 S2 E; cbn in *.
  - split; [reflexivity|exact E].
  - subst r1. cbn in S1. apply andb_true_iff in H2. destruct H2 as [H2 _].
    rewrite S1 in H2. discriminate.
  - subst r2. cbn in S2. apply andb_true_iff in H1. destruct H1 as [H1 _].
    rewrite S2 in H1. discriminate.
  - injection E as -> E.
    apply andb_true_iff in H1, H2. destruct H1 as [_ H1], H2 as [_ H2].
    destruct (IH n2 r1 r2 H1 H2 S1 S2 E) as [-> ->]. split; reflexivity.
Qed.

Lemma string_of_uint_sep_free (d : Decimal.uint) :
  sep_free (NilEmpty.string_of_uint d) = true.
Proof. induction d; cbn; try reflexivity; exact IHd. Qed.

Lemma fmt_d_sep_free (n : Z) : sep_free (fmt_d n) = true.
Proof.
  unfold fmt_d, NilZero.string_of_int, NilZero.string_of_uint.
  destruct (Z.to_int n) as [d|d]; destruct d; cbn; try reflexivity;
    apply string_of_uint_sep_free.
Qed.

Lemma fmt_d_inj (a b : Z) : fmt_d a = fmt_d b -> a = b.
Proof.
  unfold fmt_d. intros H.
  assert (forall z, NilZero.int_of_string (NilZero.string_of_int (Z.to_int z))
                    = Some (Z.to_int z)) as P.
  { intros z. destruct z as [|p|p]; [reflexivity| |];
      apply NilZero.isi; cbn; try discriminate;
      intros [= E]; apply (Unsigned.to_uint_nonnil p E). }
  apply (f_equal NilZero.int_of_string) in H. rewrite !P in H.
  injection H as H. apply (f_equal Z.of_int) in H.
  rewrite !DecimalZ.of_to in H. exact H.
Qed.

Lemma tokens_of_cons (s : string) (n : Z) (t : list (string * Z)) :
  tokens_of ((s, n) :: t)
  = if (n =? 0)%Z then tokens_of t else token (s, n) :: tokens_of t.
Proof. unfold tokens_of. cbn. destruct (n =? 0)%Z; reflexivity. Qed.

Lemma tail_str_cons (s : string) (n : Z) (ts : list string) :
  tail_str (token (s, n) :: ts) = " " ++ s ++ "^" ++ fmt_d n ++ tail_str ts.
Proof.
  unfold tail_str, token. cbn [fold_right fst snd].
  rewrite !string_append_assoc. reflexivity.
Qed.

Lemma tail_str_sep (ts : list string) : is_sep (first_char (tail_str ts)) = true.
Proof. destruct ts; reflexivity. Qed.

Lemma first_char_append (s r : string) :
  s <> "" -> first_char (s ++ r) = first_char s.
Proof. destruct s; [contradiction|reflexivity]. Qed.

(** What follows a token is the closing bracket, or a space and a later
    symbol. *)
Lemma tail_str_head (t : list (string * Z)) :
  tail_str (tokens_of t) = "]"
  \/ exists s r, In s (map fst t) /\ tail_str (tokens_of t) = " " ++ s ++ r.
Proof.
  induction t as [|[s n] t IH].
  - left. reflexivity.
  - rewrite tokens_of_cons. destruct (n =? 0)%Z.
    + destruct IH as [IH|(s' & r & Hin & IH)]; [left; exact IH|right].
      exists s', r. split; [right; exact Hin|exact IH].
    + right. rewrite tail_str_cons. eexists. eexists.
      split; [left; reflexivity|reflexivity].
Qed.

(** A token cannot be read as the text after an absent token. *)
Lemma tail_str_skip (s : string) (n : Z) (ts : list string) (t : list (string * Z)) :
  s <> "" -> Forall (fun s' => s' <> "") (map fst t) ->
  ~ In (first_char s) (map first_char (map fst t)) ->
  tail_str (token (s, n) :: ts) <> tail_str (tokens_of t).
Proof.
  intros Hs Ht Hnin E. rewrite tail_str_cons in E.
  destruct (tail_str_head t) as [H|(s' & r & Hin & H)]; rewrite H in E.
  - discriminate E.
  - injection E as E. apply Hnin.
    apply (f_equal first_char) in E.
    rewrite Forall_forall in Ht.
    rewrite !first_char_append in E by auto.
    rewrite E. apply in_map, Hin.
Qed.

(** The text after the first token determines the exponents. *)
Lemma tail_str_inj (syms : list string) :
  NoDup (map first_char syms) -> Forall (fun s => s <> "") syms ->
  forall l1 l2 : list (string * Z),
    map fst l1 = syms -> map fst l2 = syms ->
    tail_str (tokens_of l1) = tail_str (tokens_of l2) -> l1 = l2.
Proof.
  induction syms as [|s syms IH]; intros Hnd Hne l1 l2 H1 H2 E.
  - destruct l1, l2; try discriminate. reflexivity.
  - destruct l1 as [|[s1 n1] t1], l2 as [|[s2 n2] t2]; try discriminate.
    cbn [map fst] in H1, H2. injection H1 as -> H1. injection H2 as -> H2.
    cbn [map] in Hnd. apply NoDup_cons_iff in Hnd. destruct Hnd as [Hnin Hnd].
    apply Forall_cons_iff in Hne. destruct Hne as [Hs Hne].
    rewrite !tokens_of_cons in E.
    destruct (n1 =? 0)%Z eqn:Z1, (n2 =? 0)%Z eqn:Z2.
    + apply Z.eqb_eq in Z1, Z2. subst n1 n2.
      f_equal. apply (IH Hnd Hne t1 t2 H1 H2 E).
    + exfalso. symmetry in E. revert E. apply tail_str_skip; try assumption.
      * rewrite H1. exact Hne.
      * rewrite H1. exact Hnin.
    + exfalso. revert E. apply tail_str_skip; try assumption.
      * rewrite H2. exact Hne.
      * rewrite H2. exact Hnin.
    + rewrite !tail_str_cons in E. injection E as E.
      apply append_inj_l in E. injection E as E.
      apply sep_free_prefix in E;
        try apply fmt_d_sep_free; try apply tail_str_sep.
      destruct E as [En Et]. apply fmt_d_inj in En. subst n2.
      f_equal. apply (IH Hnd Hne t1 t2 H1 H2 Et).
Qed.

Lemma symbols_first_chars :
  NoDup (map first_char symbols) /\ Forall (fun s => s <> "") symbols.
Proof.
  split.
  - unfold symbols. cbn [map first_char].
    repeat (apply NoDup_cons; [cbn [In]; intuition discriminate|]).
    apply NoDup_nil.
  - unfold symbols. repeat constructor; discriminate.
Qed.

Lemma map_fst_combine_symbols (d : units.Dimension) :
  map fst (combine symbols (exponents d)) = symbols.
Proof. reflexivity. Qed.

(** The rendering of a dimension other than [[1]], from its tokens. *)
Lemma Dimension_String_tail (d : units.Dimension) :
  d <> units.Dimension_zero ->
  exists p rest,
    render_tokens d = p :: rest
    /\ units.Dimension_String d = "[" ++ p ++ tail_str rest
    /\ first_char (p ++ tail_str rest) <> "1"%char.
Proof.
  intros Hd. unfold units.Dimension_String.
  pose proof Hd as Hd'. apply Dimension_eqb_neq in Hd'. rewrite Hd'.
  rewrite parts_render_tokens.
  destruct (render_tokens d) as [|p rest] eqn:R.
  - apply render_tokens_nil in R. contradiction.
  - exists p, rest. split; [reflexivity|]. split.
    + rewrite join_parts_concat, concat_space, !string_append_assoc.
      do 2 f_equal. clear R.
      induction rest as [|q rest IH]; cbn [fold_right tail_str].
      * reflexivity.
      * rewrite !string_append_assoc. cbn. do 2 f_equal. exact IH.
    + revert R. unfold render_tokens, exponents, symbols.
      cbn [combine filter snd fst].
      destruct (units.L d =? 0)%Z, (units.M d =? 0)%Z, (units.T d =? 0)%Z,
        (units.I d =? 0)%Z, (units.Θ d =? 0)%Z, (units.N d =? 0)%Z,
        (units.J d =? 0)%Z; cbn [negb map];
        intros R;
        first [ discriminate R
              | injection R as <- _; unfold token; cbn; discriminate ].
Qed.

(** X22. The rendering of dimensions is unambiguous: two dimensions with
    the same [String()] are equal. *)
Theorem Dimension_String_inj (d e : units.Dimension) :
  units.Dimension_String d = units.Dimension_String e -> d = e.
Proof.
  intros E.
  destruct (units.Dimension_eqb d units.Dimension_zero) eqn:Hd;
    destruct (units.Dimension_eqb e units.Dimension_zero) eqn:He.
  - apply Dimension_eqb_eq in Hd, He. congruence.
  - exfalso. apply Dimension_eqb_eq in Hd. apply Dimension_eqb_neq in He. subst d.
    destruct (Dimension_String_tail He) as (p & rest & _ & S & Hp).
    rewrite S in E. change (units.Dimension_String units.Dimension_zero) with "[1]" in E.
    injection E as E. apply Hp. rewrite <- E. reflexivity.
  - exfalso. apply Dimension_eqb_eq in He. apply Dimension_eqb_neq in Hd. subst e.
    destruct (Dimension_String_tail Hd) as (p & rest & _ & S & Hp).
    rewrite S in E. change (units.Dimension_String units.Dimension_zero) with "[1]" in E.
    injection E as E. apply Hp. rewrite E. reflexivity.
  - apply Dimension_eqb_neq in Hd, He.
    destruct (Dimension_String_tail Hd) as (p & rest & R & S & _).
    destruct (Dimension_String_tail He) as (p' & rest' & R' & S' & _).
    rewrite S, S' in E. injection E as E.
    assert (tail_str (render_tokens d) = tail_str (render_tokens e)) as Et.
    { rewrite R, R'. unfold tail_str. cbn [fold_right].
      fold (tail_str rest). fold (tail_str rest').
      rewrite <- !string_append_assoc. rewrite !string_append_assoc.
      f_equal. exact E. }
    destruct symbols_first_chars as [Hnd Hne].
    pose proof (tail_str_inj Hnd Hne (combine symbols (exponents d))
                  (combine symbols (exponents e))
                  (map_fst_combine_symbols d) (map_fst_combine_symbols e) Et) as Hc.
    apply exponents_inj.
    apply (f_equal (map snd)) in Hc. exact Hc.
Qed.
End Unambiguous.

(** ** Laws of the vector operations *)

Lemma Vector3_Negate_same (v : vector.Vector3) :
  SameDimension v -> SameDimension (vector.Negate v)
                     /\ vector.Dim (vector.Negate v) = vector.Dim v.
Proof. intros Hv. split; [exact Hv|reflexivity]. Qed.

(** X23. On vectors that share one dimension, [Add] is commutative and
    [Subtract] is the addition of the negated vector, bit for bit; and
    negating a vector twice gives the vector back. *)
Theorem Vector3_Add_laws
  (u v : vector.Vector3) (Hu : SameDimension u) (Hv : SameDimension v)
  (D : vector.Dim u = vector.Dim v) :
  vector.Add u v = vector.Add v u
  /\ vector.Subtract u v = vector.Add u (vector.Negate v)
  /\ vector.Negate (vector.Negate u) = u.
Proof.
  split; [|split].
  - rewrite (Vector3_Add_Ok Hu Hv D), (Vector3_Add_Ok Hv Hu (eq_sym D)).
    rewrite D, (float_add_comm (units.value (vector.X u))),
      (float_add_comm (units.value (vector.Y u))),
      (float_add_comm (units.value (vector.Z u))).
    reflexivity.
  - destruct (Vector3_Negate_same Hv) as [Hn Dn].
    rewrite (Vector3_Subtract_Ok Hu Hv D).
    rewrite (Vector3_Add_Ok Hu Hn (eq_trans D (eq_sym Dn))).
    unfold vector.Negate, units.Negate. cbn [vector.X vector.Y vector.Z units.value].
    rewrite !float_sub_add_opp. reflexivity.
  - destruct u as [[x dx] [y dy] [z dz]].
    unfold vector.Negate, units.Negate.
    cbn [vector.X vector.Y vector.Z units.value units.dim].
    rewrite !float_opp_involutive. reflexivity.
Qed.

Lemma Vector3_Add_laws_witness :
  let d := units.mkDimension 1 0 0 0 0 0 0 in
  let u := vector.mkVector3 (units.mkValue 1 d) (units.mkValue 2 d) (units.mkValue 3 d) in
  let v := vector.mkVector3 (units.mkValue 4 d) (units.mkValue 5 d) (units.mkValue 6 d) in
  vector.Subtract u v = vector.Add u (vector.Negate v)
  /\ vector.Subtract u v
     = Ok (vector.mkVector3 (units.mkValue (-3) d) (units.mkValue (-3) d)
             (units.mkValue (-3) d)).
Proof.
  cbv zeta. split; [|reflexivity].
  apply Vector3_Add_laws; try (split; reflexivity); reflexivity.
Defined.

Section AngleBetweenSymmetry.
Variable math_Acos : float -> float.

(** X24. The angle between two vectors that share one dimension each does
    not depend on their order: [AngleBetween(u, v)] and [AngleBetween(v,
    u)] fail together or return the same float. *)
Theorem Vector3_AngleBetween_sym
  (u v : vector.Vector3) (Hu : SameDimension u) (Hv : SameDimension v) :
  vector.AngleBetween math_Acos u v = vector.AngleBetween math_Acos v u.
Proof.
  pose proof (Sqrt_Ok _ (Magnitude_Ok Hu)) as EU.
  pose proof (Sqrt_Ok _ (Magnitude_Ok Hv)) as EV.
  fold (vector.MagnitudeSquared u) in EU. fold (vector.Magnitude u) in EU.
  fold (vector.MagnitudeSquared v) in EV. fold (vector.Magnitude v) in EV.
  unfold vector.AngleBetween. rewrite EU, EV.
  rewrite (Dot_comm v u).
  match goal with
  | |- context [units.Multiply ?a ?b] => rewrite (Multiply_comm b a)
  end.
  reflexivity.
Qed.
End AngleBetweenSymmetry.

Lemma Vector3_AngleBetween_sym_witness :
  let d := units.mkDimension 1 0 0 0 0 0 0 in
  let i := vector.mkVector3 (units.mkValue 1 d) (units.mkValue 0 d) (units.mkValue 0 d) in
  let w := vector.mkVector3 (units.mkValue 3 d) (units.mkValue 4 d) (units.mkValue 0 d) in
  vector.AngleBetween (fun c => c) i w = vector.AngleBetween (fun c => c) w i
  /\ vector.AngleBetween (fun c => c) i w = Ok 0x1.3333333333333p-1%float.
Proof.
  cbv zeta. split; [|vm_compute; reflexivity].
  apply Vector3_AngleBetween_sym; split; reflexivity.
Defined.

(** A quotient of a length by a time renders as [[L^1 T^-1]], and so is the
    dimension of a velocity. *)
Lemma Dimension_String_inj_witness :
  units.dim (units.Divide (units.mkValue 10 (units.mkDimension 1 0 0 0 0 0 0))
               (units.mkValue 2 (units.mkDimension 0 0 1 0 0 0 0)))
  = units.dim (units.Velocity_Value (units.MeterPerSecond 5)).
Proof. apply Dimension_String_inj. vm_compute. reflexivity. Defined.
